(** * Real-estate analytics: the financial, scoring and risk core

    A shallow embedding of [financial_calculator.py], [property_analyzer.py]
    and [risk_assessment.py], and the properties their specification states.

    Numbers.  Python's [int] and [float] values are embedded as exact
    rationals [Q]: every arithmetic operation of the source is the
    rational one, comparisons are the rational ones, and [loan_term_years]
    and other counters are [Z].  Rounding error, overflow, NaN and the
    infinities of binary64 are outside this model; the single place where
    the source produces an infinity on purpose ([float('inf')] in
    [calculate_break_even_point]) has a result type of its own.

    Dictionaries.  A [Dict[str, Any]] argument read only through
    [d.get(key, default)] is a record of [option] fields; a dictionary that
    the code iterates over is an association list in insertion order.

    Exceptions.  A function that may raise returns [result]. *)

From Stdlib Require Import QArith Qround Qpower Qfield Qabs.
From Stdlib Require Import ZArith List String Ascii Bool Lia Lqa Permutation.
Import ListNotations.

Local Open Scope Q_scope.

(** ** The Python operations the source relies on *)

Module Py.

Inductive exn : Type :=
| ZeroDivisionError
| IndexError
| ValueError (msg : string).

Inductive result (A : Type) : Type :=
| Ok (a : A)
| Raise (e : exn).
Arguments Ok {A} a.
Arguments Raise {A} e.

Definition bind {A B : Type} (c : result A) (k : A -> result B) : result B :=
  match c with
  | Ok a => k a
  | Raise e => Raise e
  end.

Definition raises {A : Type} (c : result A) : bool :=
  match c with Ok _ => false | Raise _ => true end.

(** [a < b], [a > b], [a <= b], [a == b] on numbers. *)
Definition lt (a b : Q) : bool := negb (Qle_bool b a).
Definition gt (a b : Q) : bool := lt b a.
Definition le (a b : Q) : bool := Qle_bool a b.
Definition eq (a b : Q) : bool := Qeq_bool a b.

(** [min(a, b)] keeps its first argument unless the second is smaller;
    [max(a, b)] keeps its first argument unless the second is larger. *)
Definition min (a b : Q) : Q := if lt b a then b else a.
Definition max (a b : Q) : Q := if gt b a then b else a.

(** [abs(a)]. *)
Definition abs (a : Q) : Q := if lt a 0 then - a else a.

(** [a / b]: true division, raising on a zero divisor. *)
Definition div (a b : Q) : result Q :=
  if eq b 0 then Raise ZeroDivisionError else Ok (a / b).

(** [b ** e] with an integer exponent: zero to a negative power raises. *)
Definition pow (b : Q) (e : Z) : result Q :=
  if eq b 0 && (e <? 0)%Z then Raise ZeroDivisionError else Ok (b ^ e).

(** [range(lo, hi)]. *)
Definition range (lo hi : Z) : list Z :=
  map (fun i => (lo + Z.of_nat i)%Z) (seq 0 (Z.to_nat (hi - lo))).

(** Rounding to the nearest integer, ties to the even one. *)
Definition round_half_even (x : Q) : Z :=
  let f := Qfloor x in
  match Qcompare (x - inject_Z f) (1 # 2) with
  | Lt => f
  | Gt => (f + 1)%Z
  | Eq => if Z.even f then f else (f + 1)%Z
  end.

(** [round(x, 2)]. *)
Definition round2 (x : Q) : Q :=
  inject_Z (round_half_even (x * 100)) / 100.

(** [d.get(key, default)] on an optional field. *)
Definition get {A : Type} (field : option A) (default : A) : A :=
  match field with
  | Some v => v
  | None => default
  end.

(** [key in d] on an optional field. *)
Definition has {A : Type} (field : option A) : bool :=
  match field with
  | Some _ => true
  | None => false
  end.

(** *** Strings *)

Definition lower_ascii (c : ascii) : ascii :=
  let n := nat_of_ascii c in
  if (65 <=? n)%nat && (n <=? 90)%nat then ascii_of_nat (n + 32) else c.

Definition upper_ascii (c : ascii) : ascii :=
  let n := nat_of_ascii c in
  if (97 <=? n)%nat && (n <=? 122)%nat then ascii_of_nat (n - 32) else c.

(** [s.lower()]. *)
Fixpoint lower (s : string) : string :=
  match s with
  | EmptyString => EmptyString
  | String c s' => String (lower_ascii c) (lower s')
  end.

(** [s.capitalize()]: first character upper case, the rest lower case. *)
Definition capitalize (s : string) : string :=
  match s with
  | EmptyString => EmptyString
  | String c s' => String (upper_ascii c) (lower s')
  end.

(** [sep.join(l)]. *)
Definition join (sep : string) (l : list string) : string :=
  String.concat sep l.

(** [needle in haystack] on strings. *)
Fixpoint contains (needle haystack : string) : bool :=
  String.prefix needle haystack ||
  match haystack with
  | EmptyString => false
  | String _ rest => contains needle rest
  end.

(** [x in l] on a list of strings. *)
Definition mem (x : string) (l : list string) : bool :=
  existsb (String.eqb x) l.

End Py.

Notation "x <- c ;; k" := (Py.bind c (fun x => k))
  (at level 61, c at next level, right associativity).

(** ** financial_calculator.py *)

Module FinancialCalculator.
Import Py.

(** The object's state: the two economic assumptions. *)
Record t : Type := mk {
  inflation_rate : Q;
  property_appreciation_rate : Q
}.

(** [__init__]. *)
Definition init : t :=
  {| inflation_rate := 2 # 100; property_appreciation_rate := 3 # 100 |}.

(** [set_economic_assumptions]. *)
Definition set_economic_assumptions (self : t)
    (inflation : option Q) (appreciation : option Q) : t :=
  let self1 :=
    match inflation with
    | Some r => {| inflation_rate := r;
                   property_appreciation_rate := property_appreciation_rate self |}
    | None => self
    end in
  match appreciation with
  | Some r => {| inflation_rate := inflation_rate self1;
                 property_appreciation_rate := r |}
  | None => self1
  end.

Definition calculate_roi (total_investment annual_return : Q) : result Q :=
  if le total_investment 0
  then Raise (ValueError "Total investment must be greater than zero")
  else div annual_return total_investment.

Definition calculate_cash_on_cash_return
    (annual_cash_flow total_cash_invested : Q) : result Q :=
  if le total_cash_invested 0
  then Raise (ValueError "Total cash invested must be greater than zero")
  else div annual_cash_flow total_cash_invested.

Definition calculate_cap_rate (noi property_value : Q) : result Q :=
  if le property_value 0
  then Raise (ValueError "Property value must be greater than zero")
  else div noi property_value.

Definition calculate_noi (annual_income annual_expenses : Q) : Q :=
  annual_income - annual_expenses.

Definition calculate_cash_flow (noi annual_debt_service : Q) : Q :=
  noi - annual_debt_service.

Definition calculate_monthly_cash_flow
    (monthly_income monthly_expenses monthly_mortgage : Q) : Q :=
  monthly_income - monthly_expenses - monthly_mortgage.

Definition calculate_mortgage_payment
    (loan_amount interest_rate : Q) (loan_term_years : Z) : result Q :=
  let monthly_rate := interest_rate / 12 in
  let num_payments := (loan_term_years * 12)%Z in
  if eq monthly_rate 0 then
    div loan_amount (inject_Z num_payments)
  else
    growth <- pow (1 + monthly_rate) num_payments ;;
    growth' <- pow (1 + monthly_rate) num_payments ;;
    div (loan_amount * (monthly_rate * growth)) (growth' - 1).

(** One row of the amortization table. *)
Record entry : Type := mk_entry {
  Payment : Z;
  Payment_Amount : Q;
  Principal : Q;
  Interest : Q;
  Remaining_Balance : Q
}.

(** The body of the [for payment_num in range(...)] loop, on the pair of
    the list built so far and the running [remaining_balance].  [Qred]
    puts the fraction that represents the new balance in lowest terms; it
    does not change its value, and keeps long schedules computable. *)
Definition schedule_step (monthly_rate monthly_payment : Q)
    (st : list entry * Q) (payment_num : Z) : list entry * Q :=
  let '(schedule, remaining_balance) := st in
  let interest_payment := remaining_balance * monthly_rate in
  let principal_payment := monthly_payment - interest_payment in
  let remaining_balance := Qred (remaining_balance - principal_payment) in
  (schedule ++ [ {| Payment := payment_num;
                    Payment_Amount := monthly_payment;
                    Principal := principal_payment;
                    Interest := interest_payment;
                    Remaining_Balance := max 0 remaining_balance |} ],
   remaining_balance).


Definition calculate_amortization_schedule
    (loan_amount interest_rate : Q) (loan_term_years : Z) : result (list entry) :=
  let monthly_rate := interest_rate / 12 in
  let num_payments := (loan_term_years * 12)%Z in
  monthly_payment <- calculate_mortgage_payment loan_amount interest_rate loan_term_years ;;
  Ok (fst (fold_left (schedule_step monthly_rate monthly_payment)
                     (range 1 (num_payments + 1))
                     ([], loan_amount))).

Definition calculate_loan_to_value (loan_amount property_value : Q) : result Q :=
  if le property_value 0
  then Raise (ValueError "Property value must be greater than zero")
  else div loan_amount property_value.

(** A Python float that may be [float('inf')]. *)
Inductive months : Type :=
| Finite (q : Q)
| Infinite.

Definition calculate_break_even_point
    (purchase_price monthly_income monthly_expenses : Q) : result months :=
  let monthly_net := monthly_income - monthly_expenses in
  if le monthly_net 0 then Ok Infinite
  else
    m <- div purchase_price monthly_net ;;
    Ok (Finite m).

(** One row of the cash-flow projection. *)
Record projection_entry : Type := mk_projection_entry {
  Year : Z;
  Income : Q;
  Expenses : Q;
  NOI : Q;
  Mortgage_Payment : Q;
  Cash_Flow : Q;
  Cumulative_Cash_Flow : Q
}.

Definition projection_step (self : t)
    (annual_income annual_expenses mortgage_payment : Q)
    (projection : result (list projection_entry)) (year : Z)
    : result (list projection_entry) :=
  projection <- projection ;;
  f1 <- pow (1 + inflation_rate self) (year - 1) ;;
  let income := annual_income * f1 in
  f2 <- pow (1 + inflation_rate self) (year - 1) ;;
  let expenses := annual_expenses * f2 in
  let noi := income - expenses in
  let cash_flow := noi - mortgage_payment in
  cumulative <-
    (if (year =? 1)%Z then Ok cash_flow
     else match last (map Some projection) None with
          | Some prev => Ok (Cumulative_Cash_Flow prev + cash_flow)
          | None => Raise IndexError
          end) ;;
  Ok (projection ++ [ {| Year := year; Income := income; Expenses := expenses;
                         NOI := noi; Mortgage_Payment := mortgage_payment;
                         Cash_Flow := cash_flow;
                         Cumulative_Cash_Flow := cumulative |} ]).

Definition calculate_cash_flow_projection (self : t)
    (initial_investment annual_income annual_expenses mortgage_payment : Q)
    (years : Z) : result (list projection_entry) :=
  fold_left (projection_step self annual_income annual_expenses mortgage_payment)
            (range 1 (years + 1)) (Ok []).

Definition calculate_total_return
    (purchase_price sale_price total_income total_expenses : Q) : result Q :=
  let equity_gain := sale_price - purchase_price in
  let net_income := total_income - total_expenses in
  div (equity_gain + net_income) purchase_price.

End FinancialCalculator.

(** ** The wall clock

    [datetime.now()] is the only thing outside their arguments and their
    object that the modelled functions read. *)

Module Clock.

Record datetime : Type := mk {
  year : Z;
  month : Z;
  day : Z;
  hour : Z;
  minute : Z;
  second : Z
}.

(** Decimal digits of a non-negative integer, zero-padded to [width]. *)
Fixpoint digits (width : nat) (n : Z) : string :=
  match width with
  | O => EmptyString
  | S w =>
      String.append (digits w (n / 10))
        (String (ascii_of_nat (48 + Z.to_nat (n mod 10))) EmptyString)
  end.

(** [strftime('%Y-%m-%d')], for years of four digits. *)
Definition strftime_Ymd (now : datetime) : string :=
  String.append (digits 4 (year now))
    (String.append "-"
      (String.append (digits 2 (month now))
        (String.append "-" (digits 2 (day now))))).

End Clock.

(** ** property_analyzer.py *)

Module PropertyAnalyzer.
Import Py.
Local Open Scope string_scope.
Local Open Scope list_scope.
Local Open Scope Q_scope.

(** A dictionary with string keys, in insertion order. *)
Definition dict (A : Type) : Type := list (string * A).

(** [key in d] and [d[key]]. *)
Fixpoint lookup {A : Type} (key : string) (d : dict A) : option A :=
  match d with
  | [] => None
  | (k, v) :: rest => if String.eqb key k then Some v else lookup key rest
  end.

(** [d.keys()] and [d.values()]. *)
Definition keys {A : Type} (d : dict A) : list string := map fst d.
Definition values {A : Type} (d : dict A) : list A := map snd d.

(** [sum(l)]. *)
Definition sum (l : list Q) : Q := fold_left Qplus l 0.

(** The object's state ([market_data] plays no part in scoring). *)
Record t : Type := mk {
  feature_weights : dict Q
}.

(** [__init__]. *)
Definition init : t :=
  {| feature_weights :=
       [ ("location", 25 # 100);
         ("condition", 15 # 100);
         ("size", 15 # 100);
         ("age", 10 # 100);
         ("amenities", 10 # 100);
         ("schools", 10 # 100);
         ("crime_rate", 8 # 100);
         ("future_development", 7 # 100) ] |}.

(** The keys of [property_data] that the scorer reads. *)
Record property_data : Type := mk_property_data {
  location_rating : option Q;
  condition : option Q;
  square_footage : option Q;
  year_built : option Q;
  amenities : option Q;
  school_rating : option Q;
  crime_rate : option Q;
  future_development_rating : option Q;
  proximity_to_downtown : option Q;
  proximity_to_public_transport : option Q;
  proximity_to_schools : option Q;
  proximity_to_shopping : option Q;
  proximity_to_parks : option Q;
  neighborhood_rating : option Q;
  walkability_score : option Q
}.

(** [property_data[factor]] for the factor keys of the location score. *)
Definition factor_value (d : property_data) (factor : string) : option Q :=
  if String.eqb factor "proximity_to_downtown" then proximity_to_downtown d
  else if String.eqb factor "proximity_to_public_transport"
    then proximity_to_public_transport d
  else if String.eqb factor "proximity_to_schools" then proximity_to_schools d
  else if String.eqb factor "proximity_to_shopping" then proximity_to_shopping d
  else if String.eqb factor "proximity_to_parks" then proximity_to_parks d
  else if String.eqb factor "neighborhood_rating" then neighborhood_rating d
  else if String.eqb factor "walkability_score" then walkability_score d
  else None.

Definition _calculate_location_score (d : property_data) : Q :=
  let location_score := 5 in
  let factors :=
    [ ("proximity_to_downtown", 15 # 10);
      ("proximity_to_public_transport", 1);
      ("proximity_to_schools", 7 # 10);
      ("proximity_to_shopping", 7 # 10);
      ("proximity_to_parks", 5 # 10);
      ("neighborhood_rating", 15 # 10);
      ("walkability_score", 1) ] in
  let location_score :=
    fold_left
      (fun location_score (fw : string * Q) =>
         let '(factor, weight) := fw in
         match factor_value d factor with
         | Some v => location_score + (v - 5) * weight / 5
         | None => location_score
         end)
      factors location_score in
  max 0 (min 10 location_score).

Definition evaluate_features (now : Clock.datetime) (d : property_data) : dict Q :=
  let feature_scores : dict Q := [] in
  let feature_scores :=
    match location_rating d with
    | Some r => feature_scores ++ [("location", r)]
    | None => feature_scores ++ [("location", _calculate_location_score d)]
    end in
  let feature_scores :=
    match condition d with
    | Some c => feature_scores ++ [("condition", c)]
    | None => feature_scores
    end in
  let feature_scores :=
    match square_footage d with
    | Some sqft =>
        let size_score := (sqft - 500) / 250 in
        feature_scores ++ [("size", max 0 (min 10 size_score))]
    | None => feature_scores
    end in
  let feature_scores :=
    match year_built d with
    | Some built =>
        let current_year := inject_Z (Clock.year now) in
        let age := current_year - built in
        let age_score := 10 - age / 10 in
        feature_scores ++ [("age", max 0 (min 10 age_score))]
    | None => feature_scores
    end in
  let feature_scores :=
    match amenities d with
    | Some a => feature_scores ++ [("amenities", a)]
    | None => feature_scores
    end in
  let feature_scores :=
    match school_rating d with
    | Some s => feature_scores ++ [("schools", s)]
    | None => feature_scores
    end in
  let feature_scores :=
    match crime_rate d with
    | Some c =>
        let crime_score := 10 - c * 100 in
        feature_scores ++ [("crime_rate", max 0 (min 10 crime_score))]
    | None => feature_scores
    end in
  let feature_scores :=
    match future_development_rating d with
    | Some f => feature_scores ++ [("future_development", f)]
    | None => feature_scores
    end in
  feature_scores.

(** The body of [for feature, score in feature_scores.items()], on the
    pair [(overall_score, total_weight)]. *)
Definition score_step (self : t) (st : Q * Q) (item : string * Q) : Q * Q :=
  let '(overall_score, total_weight) := st in
  let '(feature, score) := item in
  match lookup feature (feature_weights self) with
  | Some weight => (overall_score + score * weight, total_weight + weight)
  | None => (overall_score, total_weight)
  end.

(** The value of [overall_score] just before [round(overall_score, 2)]. *)
Definition unrounded_property_score (self : t) (feature_scores : dict Q) : Q :=
  let '(overall_score, total_weight) :=
    fold_left (score_step self) feature_scores (0, 0) in
  if gt total_weight 0 then
    let overall_score := overall_score / total_weight in
    overall_score * (sum (values (feature_weights self)) / total_weight)
  else overall_score.

Definition calculate_property_score (self : t) (feature_scores : dict Q) : Q :=
  round2 (unrounded_property_score self feature_scores).

(** *** The quantities the specification speaks of *)

(** The configured weight of a feature, zero for a feature outside the
    vocabulary. *)
Definition weight_of (self : t) (feature : string) : Q :=
  match lookup feature (feature_weights self) with
  | Some weight => weight
  | None => 0
  end.

(** Sum of score times weight over the features present. *)
Definition weighted_sum (self : t) (feature_scores : dict Q) : Q :=
  sum (map (fun item : string * Q => snd item * weight_of self (fst item))
           feature_scores).

(** Sum of the weights of the features present. *)
Definition used_weight (self : t) (feature_scores : dict Q) : Q :=
  sum (map (fun item : string * Q => weight_of self (fst item)) feature_scores).

(** The weighted average of the scores over the features present. *)
Definition weighted_average (self : t) (feature_scores : dict Q) : Q :=
  weighted_sum self feature_scores / used_weight self feature_scores.


End PropertyAnalyzer.

(** ** risk_assessment.py *)

Module RiskAssessor.
Import Py.
Local Open Scope string_scope.
Local Open Scope list_scope.
Local Open Scope Q_scope.

(** The object's state. *)
Record t : Type := mk {
  weight_market_risk : Q;
  weight_location_risk : Q;
  weight_financial_risk : Q;
  weight_property_risk : Q;
  threshold_low : Q;
  threshold_medium : Q;
  threshold_high : Q
}.

(** [__init__]. *)
Definition init : t :=
  {| weight_market_risk := 3 # 10;
     weight_location_risk := 3 # 10;
     weight_financial_risk := 25 # 100;
     weight_property_risk := 15 # 100;
     threshold_low := 3;
     threshold_medium := 6;
     threshold_high := 8 |}.

Record market_data : Type := mk_market_data {
  price_volatility : option Q;
  price_trend : option Q;
  inventory_months : option Q;
  unemployment_rate : option Q
}.

Record location_data : Type := mk_location_data {
  crime_rate : option Q;
  avg_city_crime_rate : option Q;
  flood_risk : option string;
  school_rating : option Q;
  job_growth : option Q;
  property_tax_trend : option Q
}.

Record financial_data : Type := mk_financial_data {
  monthly_cash_flow : option Q;
  cap_rate : option Q;
  dscr : option Q;
  loan_to_value : option Q;
  vacancy_rate : option Q
}.

Record property_data : Type := mk_property_data {
  age : option Q;
  condition : option string;
  is_special_use : option bool;
  recent_major_repairs : option (list string);
  has_obsolete_features : option bool
}.

(** The dictionary every category assessor returns. *)
Record category_risk : Type := mk_category_risk {
  score : Q;
  factors : list string;
  assessment : string
}.

Definition _get_risk_level (self : t) (score : Q) : string :=
  if lt score (threshold_low self) then "low"
  else if lt score (threshold_medium self) then "medium"
  else if lt score (threshold_high self) then "high"
  else "very high".

Definition assess_market_risk (self : t) (d : market_data) : category_risk :=
  let risk_score := 0 in
  let risk_factors : list string := [] in
  let '(risk_score, risk_factors) :=
    if gt (get (price_volatility d) 0) (15 # 100)
    then (risk_score + 2, risk_factors ++ ["High market price volatility"])
    else (risk_score, risk_factors) in
  let '(risk_score, risk_factors) :=
    if lt (get (price_trend d) 0) 0
    then (risk_score + get (price_trend d) 0 * - (10),
          risk_factors ++ ["Negative price trend in the market"])
    else (risk_score, risk_factors) in
  let '(risk_score, risk_factors) :=
    if gt (get (inventory_months d) 0) 6
    then (risk_score + (get (inventory_months d) 0 - 6) * (5 # 10),
          risk_factors ++ ["High inventory levels"])
    else (risk_score, risk_factors) in
  let '(risk_score, risk_factors) :=
    if gt (get (unemployment_rate d) 0) 5
    then (risk_score + (get (unemployment_rate d) 0 - 5) * (3 # 10),
          risk_factors ++ ["Elevated unemployment rate"])
    else (risk_score, risk_factors) in
  let risk_score := min (max risk_score 0) 10 in
  {| score := risk_score;
     factors := risk_factors;
     assessment := _get_risk_level self risk_score |}.

(** [flood_risk_map.get(key, 0)]. *)
Definition flood_risk_map (key : string) : Q :=
  if String.eqb key "medium" then 2
  else if String.eqb key "high" then 4
  else if String.eqb key "very high" then 5
  else 0.

Definition assess_location_risk (self : t) (d : location_data) : result category_risk :=
  let risk_score := 0 in
  let risk_factors : list string := [] in
  st <-
    (if gt (get (crime_rate d) 0) (get (avg_city_crime_rate d) 0)
     then
       factor <- div (get (crime_rate d) 0) (get (avg_city_crime_rate d) 1) ;;
       Ok (risk_score + min (factor * 2) 3,
           risk_factors ++ ["Above average crime rate"])
     else Ok (risk_score, risk_factors)) ;;
  let '(risk_score, risk_factors) := st in
  let '(risk_score, risk_factors) :=
    if negb (String.eqb (get (flood_risk d) "low") "low")
    then (risk_score + flood_risk_map (get (flood_risk d) "low"),
          risk_factors ++
            [String.append (capitalize (get (flood_risk d) "low")) " flood risk"])
    else (risk_score, risk_factors) in
  let '(risk_score, risk_factors) :=
    if lt (get (school_rating d) 7) 5
    then (risk_score + (5 - get (school_rating d) 7) * (5 # 10),
          risk_factors ++ ["Below average school ratings"])
    else (risk_score, risk_factors) in
  let '(risk_score, risk_factors) :=
    if lt (get (job_growth d) 0) 0
    then (risk_score + abs (get (job_growth d) 0 * 3),
          risk_factors ++ ["Declining job market"])
    else (risk_score, risk_factors) in
  let '(risk_score, risk_factors) :=
    if gt (get (property_tax_trend d) 0) (5 # 100)
    then (risk_score + (get (property_tax_trend d) 0 - (5 # 100)) * 20,
          risk_factors ++ ["Rapidly increasing property taxes"])
    else (risk_score, risk_factors) in
  let risk_score := min (max risk_score 0) 10 in
  Ok {| score := risk_score;
        factors := risk_factors;
        assessment := _get_risk_level self risk_score |}.

(** [risk_score] and [risk_factors] of [assess_financial_risk] at the
    comment "Normalize the score to 0-10 range", before the clamp. *)
Definition financial_rules (d : financial_data) : Q * list string :=
  let risk_score := 0 in
  let risk_factors : list string := [] in
  let monthly_cash_flow := get (monthly_cash_flow d) 0 in
  let '(risk_score, risk_factors) :=
    if lt monthly_cash_flow 0
    then (risk_score + min (abs monthly_cash_flow / 200) 4,
          risk_factors ++ ["Negative cash flow"])
    else if lt monthly_cash_flow 200
    then (risk_score + 2, risk_factors ++ ["Low cash flow margin"])
    else (risk_score, risk_factors) in
  let cap_rate := get (cap_rate d) (7 # 100) in
  let '(risk_score, risk_factors) :=
    if lt cap_rate (5 # 100)
    then (risk_score + ((5 # 100) - cap_rate) * 60,
          risk_factors ++ ["Below average capitalization rate"])
    else (risk_score, risk_factors) in
  let dscr := get (dscr d) (12 # 10) in
  let '(risk_score, risk_factors) :=
    if lt dscr (12 # 10)
    then (risk_score + ((12 # 10) - dscr) * 10,
          risk_factors ++ ["Low debt service coverage ratio"])
    else (risk_score, risk_factors) in
  let ltv := get (loan_to_value d) (7 # 10) in
  let '(risk_score, risk_factors) :=
    if gt ltv (8 # 10)
    then (risk_score + (ltv - (8 # 10)) * 15,
          risk_factors ++ ["High loan-to-value ratio"])
    else (risk_score, risk_factors) in
  let vacancy_rate := get (vacancy_rate d) (5 # 100) in
  let '(risk_score, risk_factors) :=
    if gt vacancy_rate (8 # 100)
    then (risk_score + (vacancy_rate - (8 # 100)) * 20,
          risk_factors ++ ["Above average vacancy rate"])
    else (risk_score, risk_factors) in
  (risk_score, risk_factors).

Definition assess_financial_risk (self : t) (d : financial_data) : category_risk :=
  let '(risk_score, risk_factors) := financial_rules d in
  let risk_score := min (max risk_score 0) 10 in
  {| score := risk_score;
     factors := risk_factors;
     assessment := _get_risk_level self risk_score |}.

(** [condition_score_map.get(key, 0)]. *)
Definition condition_score_map (key : string) : Q :=
  if String.eqb key "excellent" then 0
  else if String.eqb key "good" then 1
  else if String.eqb key "fair" then 25 # 10
  else if String.eqb key "poor" then 5
  else if String.eqb key "very poor" then 7
  else 0.

(** Truth value of a list: [not l] holds of the empty list. *)
Definition is_empty {A : Type} (l : list A) : bool :=
  match l with [] => true | _ => false end.

Definition assess_property_risk (self : t) (d : property_data) : category_risk :=
  let risk_score := 0 in
  let risk_factors : list string := [] in
  let property_age := get (age d) 0 in
  let '(risk_score, risk_factors) :=
    if gt property_age 30
    then (risk_score + min ((property_age - 30) * (1 # 10)) 3,
          risk_factors ++ ["Older property may require more maintenance"])
    else (risk_score, risk_factors) in
  let condition := lower (get (condition d) "good") in
  let risk_score := risk_score + condition_score_map condition in
  let risk_factors :=
    if mem condition ["fair"; "poor"; "very poor"]
    then risk_factors ++
           [String.append "Property in " (String.append condition " condition")]
    else risk_factors in
  let '(risk_score, risk_factors) :=
    if get (is_special_use d) false
    then (risk_score + 2,
          risk_factors ++ ["Special use property may have limited buyer pool"])
    else (risk_score, risk_factors) in
  let recent_repairs := get (recent_major_repairs d) [] in
  let '(risk_score, risk_factors) :=
    if is_empty recent_repairs && gt property_age 15
    then (risk_score + (15 # 10),
          risk_factors ++ ["No recent major repairs for aging property"])
    else (risk_score, risk_factors) in
  let '(risk_score, risk_factors) :=
    if get (has_obsolete_features d) false
    then (risk_score + 1, risk_factors ++ ["Property has obsolete features"])
    else (risk_score, risk_factors) in
  let risk_score := min (max risk_score 0) 10 in
  {| score := risk_score;
     factors := risk_factors;
     assessment := _get_risk_level self risk_score |}.

(** The local list [recommendations] at the point where the body of
    [_generate_recommendations] ends. *)
Definition recommendations_at_end (self : t)
    (property_data : property_data) (financial_data : financial_data)
    (location_data : location_data) (market_data : market_data)
    (market_risk location_risk financial_risk property_risk : category_risk)
    (overall_score : Q) : list string :=
  let recommendations : list string := [] in
  let risk_level := _get_risk_level self overall_score in
  let recommendations :=
    if String.eqb risk_level "low" then
      recommendations ++
        ["Overall low risk profile - consider proceeding with investment"]
    else if String.eqb risk_level "medium" then
      recommendations ++
        ["Medium risk profile - proceed with caution and additional due diligence"]
    else if String.eqb risk_level "high" then
      recommendations ++
        ["High risk profile - consider negotiating price or terms to offset risk"]
    else
      recommendations ++
        ["Very high risk profile - consider alternative investment opportunities"] in
  let recommendations :=
    if gt (score market_risk) (threshold_medium self) then
      let recommendations :=
        if gt (get (price_volatility market_data) 0) (15 # 100)
        then recommendations ++
               ["Consider a longer hold period to offset market volatility"]
        else recommendations in
      if lt (get (price_trend market_data) 0) 0
      then recommendations ++
             ["Negotiate purchase price to account for negative market trends"]
      else recommendations
    else recommendations in
  let recommendations :=
    if gt (score location_risk) (threshold_medium self) then
      let recommendations :=
        if contains "crime rate" (lower (join " " (factors location_risk)))
        then recommendations ++
               ["Budget for enhanced security measures or property management"]
        else recommendations in
      if contains "flood risk" (lower (join " " (factors location_risk)))
      then recommendations ++
             ["Obtain comprehensive flood insurance and consider flood mitigation measures"]
      else recommendations
    else recommendations in
  let recommendations :=
    if gt (score financial_risk) (threshold_medium self) then
      let recommendations :=
        if mem "Negative cash flow" (factors financial_risk)
        then recommendations ++
               ["Reevaluate rental income potential or consider property improvements to increase rent"]
        else recommendations in
      if mem "High loan-to-value ratio" (factors financial_risk)
      then recommendations ++
             ["Consider increasing down payment to improve debt-to-equity ratio"]
      else recommendations
    else recommendations in
  recommendations.

(** [_generate_recommendations]: the body builds [recommendations] and
    ends without a [return] statement, so the call evaluates to [None]
    (the [None] of [option] stands for Python's [None]). *)
Definition _generate_recommendations (self : t)
    (property_data : property_data) (financial_data : financial_data)
    (location_data : location_data) (market_data : market_data)
    (market_risk location_risk financial_risk property_risk : category_risk)
    (overall_score : Q) : option (list string) :=
  let recommendations :=
    recommendations_at_end self property_data financial_data location_data
      market_data market_risk location_risk financial_risk property_risk
      overall_score in
  None.

(** The dictionary [get_overall_risk_assessment] returns. *)
Record overall : Type := mk_overall {
  overall_score : Q;
  risk_level : string;
  breakdown_market_risk : category_risk;
  breakdown_location_risk : category_risk;
  breakdown_financial_risk : category_risk;
  breakdown_property_risk : category_risk;
  risk_factors : list string;
  recommendations : option (list string);
  assessment_date : string
}.

Definition get_overall_risk_assessment (self : t) (now : Clock.datetime)
    (property_data : property_data) (financial_data : financial_data)
    (location_data : location_data) (market_data : market_data)
    : result overall :=
  let market_risk := assess_market_risk self market_data in
  location_risk <- assess_location_risk self location_data ;;
  let financial_risk := assess_financial_risk self financial_data in
  let property_risk := assess_property_risk self property_data in
  let weighted_score :=
    score market_risk * weight_market_risk self +
    score location_risk * weight_location_risk self +
    score financial_risk * weight_financial_risk self +
    score property_risk * weight_property_risk self in
  let all_risk_factors : list string := [] in
  let all_risk_factors := all_risk_factors ++ factors market_risk in
  let all_risk_factors := all_risk_factors ++ factors location_risk in
  let all_risk_factors := all_risk_factors ++ factors financial_risk in
  let all_risk_factors := all_risk_factors ++ factors property_risk in
  let recommendations :=
    _generate_recommendations self property_data financial_data location_data
      market_data market_risk location_risk financial_risk property_risk
      weighted_score in
  Ok {| overall_score := weighted_score;
        risk_level := _get_risk_level self weighted_score;
        breakdown_market_risk := market_risk;
        breakdown_location_risk := location_risk;
        breakdown_financial_risk := financial_risk;
        breakdown_property_risk := property_risk;
        risk_factors := all_risk_factors;
        recommendations := recommendations;
        assessment_date := Clock.strftime_Ymd now |}.

(** *** Inputs used to state the properties *)

(** The empty dictionaries. *)
Definition no_market_data : market_data :=
  mk_market_data None None None None.
Definition no_location_data : location_data :=
  mk_location_data None None None None None None.
Definition no_financial_data : financial_data :=
  mk_financial_data None None None None None.
Definition no_property_data : property_data :=
  mk_property_data None None None None None.

(** [financial_data] with the key [monthly_cash_flow] set to [v]. *)
Definition with_monthly_cash_flow (d : financial_data) (v : Q) : financial_data :=
  {| monthly_cash_flow := Some v;
     cap_rate := cap_rate d;
     dscr := dscr d;
     loan_to_value := loan_to_value d;
     vacancy_rate := vacancy_rate d |}.

(** A score within the 0-10 scale. *)
Definition on_scale (score : Q) : Prop := 0 <= score /\ score <= 10.

End RiskAssessor.

(** ** Exceptions of the remaining functions

    [KeyError] joins the exceptions of [Py] for the functions that index a
    dictionary or a table with a key that may be absent. *)

Module Exc.

Inductive exn : Type :=
| Builtin (e : Py.exn)
| KeyError (key : string).

Inductive result (A : Type) : Type :=
| Ok (a : A)
| Raise (e : exn).
Arguments Ok {A} a.
Arguments Raise {A} e.

Definition bind {A B : Type} (c : result A) (k : A -> result B) : result B :=
  match c with
  | Ok a => k a
  | Raise e => Raise e
  end.

(** A computation that raises only the exceptions of [Py]. *)
Definition lift {A : Type} (c : Py.result A) : result A :=
  match c with
  | Py.Ok a => Ok a
  | Py.Raise e => Raise (Builtin e)
  end.

End Exc.

Notation "x <~ c ;; k" := (Exc.bind c (fun x => k))
  (at level 61, c at next level, right associativity).

(** ** financial_calculator.py, the valuation and analysis methods *)

Module InvestmentAnalysis.
Import Py FinancialCalculator.

Definition estimate_future_value (self : FinancialCalculator.t)
    (current_value : Q) (years : Z) (appreciation_rate : option Q) : result Q :=
  let appreciation_rate :=
    match appreciation_rate with
    | None => property_appreciation_rate self
    | Some rate => rate
    end in
  growth <- pow (1 + appreciation_rate) years ;;
  Ok (current_value * growth).

(** [sum(prop['price'] for prop in comp_properties)]: a comparable is
    given by its ['price'] entry, [None] when the key is absent. *)
Definition add_price (total : Exc.result Q) (price : option Q) : Exc.result Q :=
  total <~ total ;;
  match price with
  | Some p => Exc.Ok (total + p)
  | None => Exc.Raise (Exc.KeyError "price")
  end.

Definition total_price (comp_properties : list (option Q)) : Exc.result Q :=
  fold_left add_price comp_properties (Exc.Ok 0).

Definition calculate_value_by_comps (comp_properties : list (option Q))
    : Exc.result Q :=
  match comp_properties with
  | [] =>
      Exc.Raise
        (Exc.Builtin (ValueError "At least one comparable property is required"))
  | _ =>
      total_value <~ total_price comp_properties ;;
      Exc.lift
        (div total_value (inject_Z (Z.of_nat (List.length comp_properties))))
  end.

(** [calculate_irr], over numpy's [irr], which is not part of the
    repository: it is a parameter, and every exception it raises is caught
    and turned into [None]. *)
Definition calculate_irr (np_irr : list Q -> result Q)
    (initial_investment : Q) (cash_flows : list Q) : option Q :=
  let all_cash_flows := (- initial_investment) :: cash_flows in
  match np_irr all_cash_flows with
  | Ok irr => Some irr
  | Raise _ => None
  end.

(** The keys of [property_data] that [analyze_investment] reads. *)
Record investment_data : Type := mk_investment_data {
  purchase_price : option Q;
  current_value : option Q;
  down_payment : option Q;
  interest_rate : option Q;
  loan_term_years : option Z;
  annual_income : option Q;
  annual_expenses : option Q;
  holding_period_years : option Z
}.

(** The dictionary [analyze_investment] returns; the last three keys are
    set only when a holding period is given. *)
Record analysis : Type := mk_analysis {
  monthly_mortgage : Q;
  annual_mortgage : Q;
  noi : Q;
  annual_cash_flow : Q;
  monthly_cash_flow : Q;
  cap_rate : Q;
  cash_on_cash_return : Q;
  loan_to_value : Q;
  future_value : option Q;
  cash_flow_projection : option (list projection_entry);
  irr : option (option Q)
}.

(** [df[name]] on a table built from a list of rows: a table built from no
    row has no column. *)
Definition column {A B : Type} (name : string) (field : A -> B)
    (rows : list A) : Exc.result (list B) :=
  match rows with
  | [] => Exc.Raise (Exc.KeyError name)
  | _ => Exc.Ok (map field rows)
  end.

(** [df.iloc[i]]: a negative position counts from the end. *)
Definition iloc {A : Type} (rows : list A) (i : Z) : result A :=
  let n := Z.of_nat (List.length rows) in
  let j := if (i <? 0)%Z then (n + i)%Z else i in
  if ((j <? 0) || (n <=? j))%Z then Raise IndexError
  else
    match nth_error rows (Z.to_nat j) with
    | Some row => Ok row
    | None => Raise IndexError
    end.

(** [l[-1] += x]. *)
Definition add_to_last (l : list Q) (x : Q) : result (list Q) :=
  match rev l with
  | [] => Raise IndexError
  | final :: earlier => Ok (rev earlier ++ [final + x])
  end.

(** The list [projected_cash_flows] that [analyze_investment] hands to
    [calculate_irr]. *)
Definition irr_cash_flows
    (down_payment loan_amount interest_rate : Q) (loan_term : Z)
    (projection : list projection_entry) (future_value : Q) (years : Z)
    : Exc.result (list Q) :=
  projected_cash_flows <~ column "Cash Flow" Cash_Flow projection ;;
  let final_value := future_value in
  schedule <~
    Exc.lift (calculate_amortization_schedule loan_amount interest_rate loan_term) ;;
  row <~ Exc.lift (iloc schedule (Z.min (years * 12 - 1) (loan_term * 12 - 1))) ;;
  let final_loan_balance := Remaining_Balance row in
  let equity_at_sale := final_value - final_loan_balance in
  Exc.lift (add_to_last projected_cash_flows (equity_at_sale - down_payment)).

Definition analyze_investment (np_irr : list Q -> result Q)
    (self : FinancialCalculator.t) (property_data : investment_data)
    : Exc.result analysis :=
  let purchase_price := get (purchase_price property_data) 0 in
  let property_value := get (current_value property_data) purchase_price in
  let down_payment := get (down_payment property_data) 0 in
  let loan_amount := purchase_price - down_payment in
  let interest_rate := get (interest_rate property_data) (4 # 100) in
  let loan_term := get (loan_term_years property_data) 30%Z in
  let annual_income := get (annual_income property_data) 0 in
  let annual_expenses := get (annual_expenses property_data) 0 in
  monthly_mortgage <~
    Exc.lift (calculate_mortgage_payment loan_amount interest_rate loan_term) ;;
  let annual_mortgage := monthly_mortgage * 12 in
  let noi := calculate_noi annual_income annual_expenses in
  let annual_cash_flow := calculate_cash_flow noi annual_mortgage in
  cap_rate <~ Exc.lift (calculate_cap_rate noi property_value) ;;
  cash_on_cash <~
    Exc.lift (calculate_cash_on_cash_return annual_cash_flow down_payment) ;;
  loan_to_value <~ Exc.lift (calculate_loan_to_value loan_amount property_value) ;;
  let results :=
    {| monthly_mortgage := monthly_mortgage;
       annual_mortgage := annual_mortgage;
       noi := noi;
       annual_cash_flow := annual_cash_flow;
       monthly_cash_flow := annual_cash_flow / 12;
       cap_rate := cap_rate;
       cash_on_cash_return := cash_on_cash;
       loan_to_value := loan_to_value;
       future_value := None;
       cash_flow_projection := None;
       irr := None |} in
  match holding_period_years property_data with
  | None | Some 0%Z => Exc.Ok results
  | Some years =>
      future_value <~
        Exc.lift (estimate_future_value self property_value years None) ;;
      projection <~
        Exc.lift (calculate_cash_flow_projection self down_payment annual_income
                    annual_expenses annual_mortgage years) ;;
      projected_cash_flows <~
        irr_cash_flows down_payment loan_amount interest_rate loan_term
          projection future_value years ;;
      Exc.Ok
        {| monthly_mortgage := monthly_mortgage;
           annual_mortgage := annual_mortgage;
           noi := noi;
           annual_cash_flow := annual_cash_flow;
           monthly_cash_flow := annual_cash_flow / 12;
           cap_rate := cap_rate;
           cash_on_cash_return := cash_on_cash;
           loan_to_value := loan_to_value;
           future_value := Some future_value;
           cash_flow_projection := Some projection;
           irr := Some (calculate_irr np_irr down_payment projected_cash_flows) |}
  end.

End InvestmentAnalysis.

(** ** property_analyzer.py, the metrics and the weight setter *)

Module PropertyMetrics.
Import Py PropertyAnalyzer.






End PropertyMetrics.

(** * Properties *)

(** ** Comparisons, [min], [max] and division *)

Section PyFacts.
Import Py.

Lemma lt_true (a b : Q) : lt a b = true <-> a < b.
Proof.
  unfold lt. rewrite negb_true_iff, <- not_true_iff_false, Qle_bool_iff.
  split; [apply Qnot_le_lt | apply Qlt_not_le].
Qed.

Lemma lt_false (a b : Q) : lt a b = false <-> b <= a.
Proof.
  unfold lt. rewrite negb_false_iff. apply Qle_bool_iff.
Qed.

Lemma lt_reflect (a b : Q) : reflect (a < b) (lt a b).
Proof.
  destruct (lt a b) eqn:E; constructor.
  - now apply lt_true.
  - apply lt_false in E. now apply Qle_not_lt.
Qed.

Lemma gt_reflect (a b : Q) : reflect (b < a) (gt a b).
Proof. apply lt_reflect. Qed.

Lemma le_reflect (a b : Q) : reflect (a <= b) (le a b).
Proof.
  unfold le. destruct (Qle_bool a b) eqn:E; constructor.
  - now apply Qle_bool_iff.
  - intros H. apply Qle_bool_iff in H. congruence.
Qed.

Lemma eq_reflect (a b : Q) : reflect (a == b) (eq a b).
Proof.
  unfold eq. destruct (Qeq_bool a b) eqn:E; constructor.
  - now apply Qeq_bool_iff.
  - now apply Qeq_bool_neq.
Qed.

Lemma min_le_r (a b : Q) : min a b <= b.
Proof. unfold min. destruct (lt_reflect b a); lra. Qed.

Lemma min_le_l (a b : Q) : min a b <= a.
Proof. unfold min. destruct (lt_reflect b a); lra. Qed.

Lemma min_glb (a b c : Q) : c <= a -> c <= b -> c <= min a b.
Proof. unfold min. destruct (lt_reflect b a); lra. Qed.

Lemma max_ge_r (a b : Q) : b <= max a b.
Proof. unfold max. destruct (gt_reflect b a); lra. Qed.

Lemma max_ge_l (a b : Q) : a <= max a b.
Proof. unfold max. destruct (gt_reflect b a); lra. Qed.

(** The clamp [min(max(x, 0), 10)] that ends every risk assessor. *)
Lemma clamp_0_10 (x : Q) : 0 <= min (max x 0) 10 /\ min (max x 0) 10 <= 10.
Proof.
  split.
  - apply min_glb; [apply max_ge_r | lra].
  - apply min_le_r.
Qed.

(** The clamp [max(0, min(10, x))] of the property scorer. *)
Lemma clamp_10_0 (x : Q) : 0 <= max 0 (min 10 x) /\ max 0 (min 10 x) <= 10.
Proof.
  split.
  - apply max_ge_l.
  - unfold max. destruct (gt_reflect (min 10 x) 0); [apply min_le_l | lra].
Qed.

Lemma div_ok (a b : Q) : ~ b == 0 -> div a b = Ok (a / b).
Proof.
  intros H. unfold div. destruct (eq_reflect b 0); [contradiction | reflexivity].
Qed.


Lemma pow_ok (b : Q) (e : Z) : ~ b == 0 -> pow b e = Ok (b ^ e).
Proof.
  intros H. unfold pow. destruct (eq_reflect b 0); [contradiction | reflexivity].
Qed.

Lemma range_length (lo hi : Z) : List.length (range lo hi) = Z.to_nat (hi - lo).
Proof. unfold range. now rewrite length_map, length_seq. Qed.

End PyFacts.

(** ** The mortgage payment *)

Section MortgagePayment.
Import Py FinancialCalculator.

Variables loan_amount interest_rate : Q.
Variable loan_term_years : Z.

Lemma inject_Z_nonzero (z : Z) : z <> 0%Z -> ~ inject_Z z == 0.
Proof. unfold Qeq. simpl. lia. Qed.

Lemma monthly_rate_eq : interest_rate / 12 == interest_rate * (1 # 12).
Proof. reflexivity. Qed.

Lemma monthly_rate_zero : interest_rate == 0 <-> interest_rate / 12 == 0.
Proof. pose proof monthly_rate_eq. split; intros; lra. Qed.

(** The straight-line branch. *)
Lemma payment_zero_rate :
  interest_rate == 0 -> loan_term_years <> 0%Z ->
  calculate_mortgage_payment loan_amount interest_rate loan_term_years
  = Ok (loan_amount / inject_Z (loan_term_years * 12)).
Proof.
  intros Hr Ht. unfold calculate_mortgage_payment.
  destruct (eq_reflect (interest_rate / 12) 0) as [_ | N].
  - apply div_ok, inject_Z_nonzero. lia.
  - exfalso. apply N. exact (proj1 monthly_rate_zero Hr).
Qed.





End MortgagePayment.

(** ** The amortization schedule *)

Section Amortization.
Import Py FinancialCalculator.

Variables monthly_rate monthly_payment : Q.


Lemma step_schedule (st : list entry * Q) (payment_num : Z) :
  exists e,
    fst (schedule_step monthly_rate monthly_payment st payment_num) = fst st ++ [e]
    /\ Remaining_Balance e
       = max 0 (snd (schedule_step monthly_rate monthly_payment st payment_num)).
Proof. destruct st. simpl. eexists. split; reflexivity. Qed.


Lemma loop_length (nums : list Z) (st : list entry * Q) :
  List.length (fst (fold_left (schedule_step monthly_rate monthly_payment) nums st))
  = (List.length (fst st) + List.length nums)%nat.
Proof.
  revert st. induction nums as [| n nums IH]; intros st.
  - simpl. lia.
  - cbn [fold_left List.length]. rewrite IH.
    destruct (step_schedule st n) as (e & -> & _).
    rewrite length_app. simpl. lia.
Qed.

Lemma loop_nonnegative (nums : list Z) (st : list entry * Q) :
  Forall (fun e => 0 <= Remaining_Balance e) (fst st) ->
  Forall (fun e => 0 <= Remaining_Balance e)
         (fst (fold_left (schedule_step monthly_rate monthly_payment) nums st)).
Proof.
  revert st. induction nums as [| n nums IH]; intros st H.
  - exact H.
  - cbn [fold_left]. apply IH.
    destruct (step_schedule st n) as (e & -> & He).
    apply Forall_app. split; [exact H |].
    constructor; [| constructor]. rewrite He. apply max_ge_l.
Qed.


(** *** The running balance in closed form *)



End Amortization.

Section FullAmortization.
Import Py FinancialCalculator.

Variables loan_amount interest_rate : Q.
Variable loan_term_years : Z.
Hypothesis term_positive : (0 < loan_term_years)%Z.




End FullAmortization.

Section FinancialClaims.
Import Py FinancialCalculator.




(** C8.  With a zero annual rate and a positive term the monthly payment
    is exactly [loan_amount / (loan_term_years * 12)]: the straight-line
    branch, which never reaches the annuity formula. *)
Theorem zero_rate_payment_is_straight_line
    (loan_amount interest_rate : Q) (loan_term_years : Z) :
  interest_rate == 0 -> (0 < loan_term_years)%Z ->
  calculate_mortgage_payment loan_amount interest_rate loan_term_years
  = Ok (loan_amount / inject_Z (loan_term_years * 12)).
Proof.
  intros Hr Ht. apply payment_zero_rate; [exact Hr | lia].
Qed.

Lemma zero_rate_payment_witness :
  calculate_mortgage_payment 300000 0 30 = Ok (300000 / inject_Z (30 * 12)).
Proof.
  apply (zero_rate_payment_is_straight_line 300000 0 30); reflexivity.
Defined.




(** C9.  [calculate_break_even_point] never raises: if the monthly net
    income is zero or negative it returns the infinite sentinel, otherwise
    it returns [purchase_price / (monthly_income - monthly_expenses)]. *)
Theorem break_even_point_total
    (purchase_price monthly_income monthly_expenses : Q) :
  (monthly_income - monthly_expenses <= 0 ->
   calculate_break_even_point purchase_price monthly_income monthly_expenses
   = Ok Infinite)
  /\ (0 < monthly_income - monthly_expenses ->
      calculate_break_even_point purchase_price monthly_income monthly_expenses
      = Ok (Finite (purchase_price / (monthly_income - monthly_expenses)))).
Proof.
  unfold calculate_break_even_point.
  destruct (le_reflect (monthly_income - monthly_expenses) 0) as [Hle | Hgt].
  - split; [reflexivity | intros H; lra].
  - split; [intros H; contradiction |].
    intros H. rewrite div_ok by lra. reflexivity.
Qed.

Lemma break_even_point_total_witness :
  calculate_break_even_point 100000 1000 1200 = Ok Infinite
  /\ calculate_break_even_point 120000 1500 500
     = Ok (Finite (120000 / (1500 - 500))).
Proof.
  split.
  - apply (break_even_point_total 100000 1000 1200). discriminate.
  - apply (break_even_point_total 120000 1500 500). reflexivity.
Defined.

(** *** The scenarios of the specification *)

(** A loan of 300000 at 6% over 30 years costs 1798.65 a month. *)
Example payment_scenario :
  match calculate_mortgage_payment 300000 (6 # 100) 30 with
  | Ok payment => Qfloor (payment * 100) = 179865%Z
  | Raise _ => False
  end.
Proof. vm_compute. reflexivity. Qed.

(** A one-year schedule for 1200 at 6%: the first row carries 6.00 of
    interest, the twelfth row leaves nothing. *)
Example schedule_scenario :
  match calculate_amortization_schedule 1200 (6 # 100) 1 with
  | Ok schedule =>
      map Payment schedule = [1; 2; 3; 4; 5; 6; 7; 8; 9; 10; 11; 12]%Z
      /\ option_map (fun e => Qred (Interest e)) (nth_error schedule 0)
         = Some 6
      /\ option_map Remaining_Balance (nth_error schedule 11) = Some 0
  | Raise _ => False
  end.
Proof. vm_compute. repeat split. Qed.

End FinancialClaims.

(** ** The property score *)

Section Rounding.
Import Py.

Lemma round_half_even_near (x : Q) :
  - (1 # 2) <= inject_Z (round_half_even x) - x
  /\ inject_Z (round_half_even x) - x <= 1 # 2.
Proof.
  unfold round_half_even.
  pose proof (Qfloor_le x) as Hlo. pose proof (Qlt_floor x) as Hhi.
  rewrite inject_Z_plus in Hhi. change (inject_Z 1) with 1 in Hhi.
  destruct (Qcompare_spec (x - inject_Z (Qfloor x)) (1 # 2)) as [E | L | G].
  - destruct (Z.even (Qfloor x));
      [| rewrite inject_Z_plus; change (inject_Z 1) with 1]; split; lra.
  - split; lra.
  - rewrite inject_Z_plus. change (inject_Z 1) with 1. split; lra.
Qed.

Lemma round_half_even_comp (x y : Q) :
  x == y -> round_half_even x = round_half_even y.
Proof.
  intros H. unfold round_half_even.
  rewrite (Qfloor_comp _ _ H).
  assert (E : Qcompare (x - inject_Z (Qfloor y)) (1 # 2)
              = Qcompare (y - inject_Z (Qfloor y)) (1 # 2))
    by (now rewrite H).
  now rewrite E.
Qed.

Lemma round2_comp (x y : Q) : x == y -> round2 x = round2 y.
Proof.
  intros H. unfold round2.
  assert (E : x * 100 == y * 100) by (now rewrite H).
  now rewrite (round_half_even_comp _ _ E).
Qed.

(** [round2] lands on a multiple of 0.01 no further than 0.005 away. *)
Lemma round2_cents (x : Q) :
  exists cents : Z,
    round2 x == inject_Z cents / 100 /\ Qabs (round2 x - x) <= 1 # 200.
Proof.
  exists (round_half_even (x * 100)). split; [reflexivity |].
  unfold round2. destruct (round_half_even_near (x * 100)) as [Hlo Hhi].
  set (c := inject_Z (round_half_even (x * 100))) in *.
  assert (Hd : c / 100 == c * (1 # 100)) by reflexivity.
  apply Qabs_Qle_condition. split; lra.
Qed.

Lemma round2_zero (x : Q) : x == 0 -> round2 x == 0.
Proof. intros H. now rewrite (round2_comp _ _ H). Qed.

End Rounding.

Section PropertyScore.
Import Py PropertyAnalyzer.

Lemma sum_from (l : list Q) (a : Q) : fold_left Qplus l a == a + sum l.
Proof.
  unfold sum. revert a. induction l as [| x l IH]; intros a; simpl.
  - ring.
  - rewrite (IH (a + x)), (IH (0 + x)). ring.
Qed.

Lemma sum_cons (x : Q) (l : list Q) : sum (x :: l) == x + sum l.
Proof. unfold sum at 1. simpl. rewrite sum_from. ring. Qed.


Lemma sum_nonnegative (l : list Q) : Forall (fun x => 0 <= x) l -> 0 <= sum l.
Proof.
  induction 1 as [| x l Hx _ IH].
  - discriminate.
  - rewrite sum_cons. lra.
Qed.

Lemma sum_bounds_term (l : list Q) (x : Q) :
  Forall (fun y => 0 <= y) l -> In x l -> x <= sum l.
Proof.
  induction 1 as [| y l Hy Hl IH]; intros Hin; [contradiction |].
  rewrite sum_cons. pose proof (sum_nonnegative l Hl).
  destruct Hin as [-> | Hin]; [lra | specialize (IH Hin); lra].
Qed.

Lemma lookup_positive (d : dict Q) (key : string) (v : Q) :
  Forall (fun entry : string * Q => 0 < snd entry) d ->
  lookup key d = Some v -> 0 < v.
Proof.
  induction 1 as [| [k w] rest Hw _ IH]; simpl.
  - discriminate.
  - destruct (String.eqb key k); [intros [= <-]; exact Hw | exact IH].
Qed.


Variable self : t.

(** The loop of [calculate_property_score] computes the two sums. *)
Lemma score_loop (feature_scores : dict Q) (overall_score total_weight : Q) :
  fst (fold_left (score_step self) feature_scores (overall_score, total_weight))
    == overall_score + weighted_sum self feature_scores
  /\ snd (fold_left (score_step self) feature_scores (overall_score, total_weight))
    == total_weight + used_weight self feature_scores.
Proof.
  unfold weighted_sum, used_weight.
  revert overall_score total_weight.
  induction feature_scores as [| [feature score] rest IH];
    intros overall_score total_weight.
  - cbn. split; ring.
  - cbn [fold_left map]. rewrite !sum_cons. cbn [fst snd].
    change (score_step self (overall_score, total_weight) (feature, score))
      with (match lookup feature (feature_weights self) with
            | Some weight => (overall_score + score * weight, total_weight + weight)
            | None => (overall_score, total_weight)
            end).
    assert (W : weight_of self feature
                = match lookup feature (feature_weights self) with
                  | Some weight => weight
                  | None => 0
                  end) by reflexivity.
    rewrite W.
    destruct (lookup feature (feature_weights self)) as [weight |].
    + destruct (IH (overall_score + score * weight) (total_weight + weight))
        as [H1 H2].
      rewrite H1, H2. split; ring.
    + destruct (IH overall_score total_weight) as [H1 H2].
      rewrite H1, H2. split; ring.
Qed.

(** With some weight in use the score is the weighted average, rescaled
    by the sum of all weights over the weight in use. *)
Lemma unrounded_rescaled (feature_scores : dict Q) :
  0 < used_weight self feature_scores ->
  unrounded_property_score self feature_scores
  == weighted_average self feature_scores
     * (sum (values (feature_weights self)) / used_weight self feature_scores).
Proof.
  intros Hw. unfold unrounded_property_score, weighted_average.
  destruct (score_loop feature_scores 0 0) as [H1 H2].
  destruct (fold_left (score_step self) feature_scores (0, 0))
    as [overall_score total_weight].
  cbn [fst snd] in H1, H2.
  destruct (gt_reflect total_weight 0) as [_ | N]; [| lra].
  rewrite H1, H2. field. lra.
Qed.

(** With no weight in use the accumulated sum is returned as it is. *)
Lemma unrounded_unscaled (feature_scores : dict Q) :
  used_weight self feature_scores <= 0 ->
  unrounded_property_score self feature_scores
  == weighted_sum self feature_scores.
Proof.
  intros Hw. unfold unrounded_property_score.
  destruct (score_loop feature_scores 0 0) as [H1 H2].
  destruct (fold_left (score_step self) feature_scores (0, 0))
    as [overall_score total_weight].
  cbn [fst snd] in H1, H2.
  destruct (gt_reflect total_weight 0) as [P | _]; [lra |].
  rewrite H1. ring.
Qed.

Lemma unknown_features_weigh_nothing (feature_scores : dict Q) :
  (forall feature, In feature (keys feature_scores) ->
                   lookup feature (feature_weights self) = None) ->
  weighted_sum self feature_scores == 0 /\ used_weight self feature_scores == 0.
Proof.
  unfold weighted_sum, used_weight, keys.
  induction feature_scores as [| [feature score] rest IH]; intros Hnone.
  - split; reflexivity.
  - cbn [map]. rewrite !sum_cons. cbn [fst snd]. unfold weight_of at 1 3.
    rewrite (Hnone feature) by (left; reflexivity).
    destruct IH as [H1 H2].
    { intros f Hf. apply Hnone. right. exact Hf. }
    rewrite H1, H2. split; ring.
Qed.

Hypothesis weights_positive :
  Forall (fun entry : string * Q => 0 < snd entry) (feature_weights self).

Lemma known_weight_positive (feature : string) (weight : Q) :
  lookup feature (feature_weights self) = Some weight -> 0 < weight.
Proof. apply lookup_positive, weights_positive. Qed.

Lemma weight_of_nonnegative (feature : string) : 0 <= weight_of self feature.
Proof.
  unfold weight_of.
  destruct (lookup feature (feature_weights self)) as [weight |] eqn:E.
  - apply Qlt_le_weak. now apply known_weight_positive with feature.
  - discriminate.
Qed.

(** One known feature is enough to put weight in use. *)
Lemma known_feature_uses_weight (feature_scores : dict Q) (feature : string) :
  In feature (keys feature_scores) ->
  lookup feature (feature_weights self) <> None ->
  0 < used_weight self feature_scores.
Proof.
  intros Hin Hknown. unfold keys in Hin.
  apply in_map_iff in Hin. destruct Hin as (item & <- & Hitem).
  destruct (lookup (fst item) (feature_weights self)) as [weight |] eqn:E;
    [| congruence].
  apply Qlt_le_trans with (weight_of self (fst item)).
  - unfold weight_of. rewrite E. now apply known_weight_positive with (fst item).
  - unfold used_weight. apply sum_bounds_term.
    + apply Forall_forall. intros y Hy. apply in_map_iff in Hy.
      destruct Hy as (it & <- & _). apply weight_of_nonnegative.
    + apply in_map_iff. exists item. split; [reflexivity | exact Hitem].
Qed.


End PropertyScore.

Section PropertyScoreClaims.
Import Py PropertyAnalyzer.
Local Open Scope string_scope.

Lemma init_weights_positive :
  Forall (fun entry : string * Q => 0 < snd entry) (feature_weights init).
Proof. repeat constructor. Qed.


Lemma init_weights_total : sum (values (feature_weights init)) == 1.
Proof. reflexivity. Qed.

(** With the weights of [__init__], a set with some weight in use scores
    its weighted average divided by the weight in use. *)
Lemma init_score_rescaled (feature_scores : dict Q) :
  0 < used_weight init feature_scores ->
  unrounded_property_score init feature_scores
  == weighted_average init feature_scores / used_weight init feature_scores.
Proof.
  intros Hw. rewrite unrounded_rescaled by exact Hw.
  rewrite init_weights_total. field. lra.
Qed.

(** C10.  Whatever the feature scores, the value returned by
    [calculate_property_score] is a whole number of hundredths, within
    0.005 of the unrounded score; with at least one feature of the
    vocabulary present it is the rounding of the weighted and rescaled
    score; with no feature of the vocabulary present it is 0. *)
Theorem property_score_is_rounded (feature_scores : dict Q) :
  (exists cents : Z,
     calculate_property_score init feature_scores == inject_Z cents / 100
     /\ Qabs (calculate_property_score init feature_scores
              - unrounded_property_score init feature_scores) <= 1 # 200)
  /\ ((exists feature,
         In feature (keys feature_scores)
         /\ lookup feature (feature_weights init) <> None) ->
      0 < used_weight init feature_scores
      /\ calculate_property_score init feature_scores
         = round2 (weighted_average init feature_scores
                   / used_weight init feature_scores))
  /\ ((forall feature,
         In feature (keys feature_scores) ->
         lookup feature (feature_weights init) = None) ->
      calculate_property_score init feature_scores == 0).
Proof.
  split; [| split].
  - apply round2_cents.
  - intros (feature & Hin & Hknown).
    assert (Hw : 0 < used_weight init feature_scores)
      by (apply known_feature_uses_weight with feature;
          [apply init_weights_positive | exact Hin | exact Hknown]).
    split; [exact Hw |].
    apply round2_comp. now apply init_score_rescaled.
  - intros Hnone.
    destruct (unknown_features_weigh_nothing init feature_scores Hnone)
      as [Hs Hw].
    apply round2_zero. rewrite unrounded_unscaled by lra. exact Hs.
Qed.

Lemma property_score_is_rounded_witness :
  (0 < used_weight init [ ("location", 7) ]
   /\ calculate_property_score init [ ("location", 7) ]
      = round2 (weighted_average init [ ("location", 7) ]
                / used_weight init [ ("location", 7) ]))
  /\ calculate_property_score init [ ("garden", 7) ] == 0.
Proof.
  split.
  - apply (property_score_is_rounded [ ("location", 7) ]).
    exists "location". split; [left; reflexivity | discriminate].
  - apply (property_score_is_rounded [ ("garden", 7) ]).
    intros feature [<- | []]. reflexivity.
Defined.




End PropertyScoreClaims.

(** ** Risk assessment *)

Section RiskScores.
Import Py RiskAssessor.

(** Splits on every test of the function under study. *)
Ltac split_tests :=
  repeat match goal with
         | |- context [if ?b then _ else _] => destruct b
         end.

Variable self : t.




(** The location assessor either divides by a zero city average, or
    returns a score on the scale. *)
Lemma location_risk_on_scale (d : location_data) :
  match assess_location_risk self d with
  | Ok risk => on_scale (score risk)
  | Raise e =>
      e = ZeroDivisionError
      /\ get (avg_city_crime_rate d) 1 == 0
      /\ get (avg_city_crime_rate d) 0 < get (crime_rate d) 0
  end.
Proof.
  unfold assess_location_risk.
  destruct (gt_reflect (get (crime_rate d) 0) (get (avg_city_crime_rate d) 0))
    as [Hgt | _].
  - unfold div.
    destruct (eq_reflect (get (avg_city_crime_rate d) 1) 0) as [Hz | _].
    + cbn [bind]. repeat split; assumption.
    + cbn [bind]. split_tests; cbn [score]; apply clamp_0_10.
  - cbn [bind]. split_tests; cbn [score]; apply clamp_0_10.
Qed.

End RiskScores.

Section RiskClaims.
Import Py RiskAssessor.
Local Open Scope string_scope.


(** What [get_overall_risk_assessment] returns, read off its body. *)
Lemma overall_assessment_fields
    (now : Clock.datetime) (property_data : property_data)
    (financial_data : financial_data) (location_data : location_data)
    (market_data : market_data) :
  match get_overall_risk_assessment init now property_data financial_data
          location_data market_data,
        assess_location_risk init location_data with
  | Ok overall, Ok location_risk =>
      overall_score overall
      = score (assess_market_risk init market_data) * weight_market_risk init
        + score location_risk * weight_location_risk init
        + score (assess_financial_risk init financial_data)
          * weight_financial_risk init
        + score (assess_property_risk init property_data)
          * weight_property_risk init
      /\ breakdown_market_risk overall = assess_market_risk init market_data
      /\ breakdown_location_risk overall = location_risk
      /\ breakdown_financial_risk overall
         = assess_financial_risk init financial_data
      /\ breakdown_property_risk overall
         = assess_property_risk init property_data
      /\ recommendations overall = None
      /\ assessment_date overall = Clock.strftime_Ymd now
  | Raise e, Raise e' => e = e'
  | _, _ => False
  end.
Proof.
  unfold get_overall_risk_assessment.
  destruct (assess_location_risk init location_data) as [location_risk | e];
    cbn [bind]; [| reflexivity].
  repeat split.
Qed.


(** C7, as the code has it.  With [monthly_cash_flow = -250] the cash-flow
    rule adds [min(250/200, 4) = 1.25] to the running total and puts
    "Negative cash flow" first in the factor list; every other rule
    contributes what it contributes at a cash flow of 200, where the
    cash-flow rule is silent. *)
Theorem negative_cash_flow_penalty (self : t) (d : financial_data) :
  monthly_cash_flow d = Some (-250) ->
  fst (financial_rules d)
    == (5 # 4) + fst (financial_rules (with_monthly_cash_flow d 200))
  /\ snd (financial_rules d)
     = "Negative cash flow"
         :: snd (financial_rules (with_monthly_cash_flow d 200))
  /\ In "Negative cash flow" (factors (assess_financial_risk self d))
  /\ score (assess_financial_risk self d)
     = min (max (fst (financial_rules d)) 0) 10.
Proof.
  intros Hcf.
  assert (H12 : fst (financial_rules d)
                  == (5 # 4) + fst (financial_rules (with_monthly_cash_flow d 200))
                /\ snd (financial_rules d)
                   = "Negative cash flow"
                       :: snd (financial_rules (with_monthly_cash_flow d 200))).
  { unfold financial_rules, with_monthly_cash_flow. rewrite Hcf.
    cbn [get monthly_cash_flow cap_rate dscr loan_to_value vacancy_rate].
    change (lt (-250) 0) with true. change (lt 200 0) with false.
    change (lt 200 200) with false.
    change (min (abs (-250) / 200) 4) with (250 # 200). cbv iota.
    repeat match goal with
           | |- context [if ?b then _ else _] => destruct b
           end; cbn [fst snd app]; split; (reflexivity || lra). }
  destruct H12 as [H1 H2]. split; [exact H1 |]. split; [exact H2 |].
  unfold assess_financial_risk.
  destruct (financial_rules d) as [risk_score risk_factors].
  cbn [fst snd factors score] in *. split; [| reflexivity].
  rewrite H2. left. reflexivity.
Qed.

Lemma negative_cash_flow_penalty_witness :
  fst (financial_rules (with_monthly_cash_flow no_financial_data (-250)))
    == (5 # 4)
       + fst (financial_rules
                (with_monthly_cash_flow
                   (with_monthly_cash_flow no_financial_data (-250)) 200))
  /\ snd (financial_rules (with_monthly_cash_flow no_financial_data (-250)))
     = "Negative cash flow"
         :: snd (financial_rules
                   (with_monthly_cash_flow
                      (with_monthly_cash_flow no_financial_data (-250)) 200))
  /\ In "Negative cash flow"
        (factors (assess_financial_risk init
                    (with_monthly_cash_flow no_financial_data (-250))))
  /\ score (assess_financial_risk init
              (with_monthly_cash_flow no_financial_data (-250)))
     = min (max (fst (financial_rules
                        (with_monthly_cash_flow no_financial_data (-250)))) 0) 10.
Proof.
  apply (negative_cash_flow_penalty init
           (with_monthly_cash_flow no_financial_data (-250))).
  reflexivity.
Defined.

(** C7 fails as stated: at [monthly_cash_flow = -250] and nothing else the
    total before the clamp and the score are 1.25, below the 4 the claim
    computes. *)
Lemma negative_cash_flow_penalty_is_not_four :
  fst (financial_rules (with_monthly_cash_flow no_financial_data (-250)))
    == 5 # 4
  /\ score (assess_financial_risk init
              (with_monthly_cash_flow no_financial_data (-250))) == 5 # 4
  /\ ~ 4 <= score (assess_financial_risk init
                     (with_monthly_cash_flow no_financial_data (-250))).
Proof.
  split; [reflexivity |]. split; [reflexivity |].
  intros H. vm_compute in H. apply H. reflexivity.
Qed.

(** *** The scenario of the specification *)

(** A 150-year-old property in poor condition with no repairs on record
    scores 3 + 5 + 1.5 = 9.5, "very high". *)
Example property_risk_scenario :
  assess_property_risk init
    (mk_property_data (Some 150) (Some "poor") None None None)
  = {| score := 0 + 3 + 5 + (15 # 10);
       factors := [ "Older property may require more maintenance";
                    "Property in poor condition";
                    "No recent major repairs for aging property" ];
       assessment := "very high" |}.
Proof. reflexivity. Qed.

End RiskClaims.

Section Recommendations.
Import Py RiskAssessor.
Local Open Scope string_scope.

(** C3, on the code.  The body of [_generate_recommendations] builds its
    list in the order overall, market, location, financial, has no rule
    for the property category, and ends without returning the list: the
    call evaluates to [None] on every input, and that is what
    [get_overall_risk_assessment] stores under [recommendations].  On four
    empty dictionaries the list built and dropped is the single overall
    recommendation. *)
Theorem recommendations_are_not_returned
    (now : Clock.datetime) (property_data : property_data)
    (financial_data : financial_data) (location_data : location_data)
    (market_data : market_data) :
  (forall self market_risk location_risk financial_risk property_risk
          overall_score,
      _generate_recommendations self property_data financial_data
        location_data market_data market_risk location_risk financial_risk
        property_risk overall_score = None)
  /\ match get_overall_risk_assessment init now property_data financial_data
             location_data market_data with
     | Ok overall => recommendations overall = None
     | Raise e => e = ZeroDivisionError
     end
  /\ (forall self market_risk location_risk financial_risk property_risk
             property_data' property_risk' overall_score,
         recommendations_at_end self property_data financial_data
           location_data market_data market_risk location_risk
           financial_risk property_risk overall_score
         = recommendations_at_end self property_data' financial_data
             location_data market_data market_risk location_risk
             financial_risk property_risk' overall_score)
  /\ get_overall_risk_assessment init now no_property_data no_financial_data
       no_location_data no_market_data
     = Ok {| overall_score := 0 * (3 # 10) + 0 * (3 # 10)
                              + 2 * (25 # 100) + 1 * (15 # 100);
             risk_level := "low";
             breakdown_market_risk :=
               {| score := 0; factors := []; assessment := "low" |};
             breakdown_location_risk :=
               {| score := 0; factors := []; assessment := "low" |};
             breakdown_financial_risk :=
               {| score := 2; factors := ["Low cash flow margin"];
                  assessment := "low" |};
             breakdown_property_risk :=
               {| score := 1; factors := []; assessment := "low" |};
             risk_factors := ["Low cash flow margin"];
             recommendations := None;
             assessment_date := Clock.strftime_Ymd now |}.
Proof.
  split; [reflexivity |]. split; [| split; [reflexivity |]].
  - pose proof (overall_assessment_fields now property_data financial_data
                  location_data market_data) as Ho.
    pose proof (location_risk_on_scale init location_data) as Hl.
    destruct (get_overall_risk_assessment init now property_data
                financial_data location_data market_data) as [overall | e];
      destruct (assess_location_risk init location_data) as [risk | e'];
      try contradiction.
    + now destruct Ho as (_ & _ & _ & _ & _ & Hr & _).
    + destruct Hl as [-> _]. exact Ho.
  - reflexivity.
Qed.

End Recommendations.

(** ** What a result depends on

    The methods are embedded as functions of their arguments, of the object
    they read ([self]) and, for the two that call [datetime.now()], of the
    clock: no method of the three classes other than the setters assigns to
    an attribute, so there is no other state to thread. *)

Section Determinism.
Import Py.




End Determinism.

(** * Further properties of the code *)

(** ** Ratios and valuation *)

Section Ratios.
Import Py FinancialCalculator InvestmentAnalysis.

Lemma guarded_ratio (msg : string) (numerator basis : Q) :
  match (if le basis 0 then Raise (ValueError msg) else div numerator basis) with
  | Ok ratio => 0 < basis /\ ratio * basis == numerator
  | Raise e => basis <= 0 /\ e = ValueError msg
  end.
Proof.
  destruct (le_reflect basis 0) as [Hle | Hgt].
  - split; [exact Hle | reflexivity].
  - assert (Hpos : 0 < basis) by lra.
    rewrite div_ok by lra. split; [exact Hpos |]. field. lra.
Qed.

(** X1.  The cap rate is defined exactly for a positive property value, where
    it gives the operating income back when multiplied by the value; any
    other value is refused with [ValueError]. *)
Theorem cap_rate_round_trip (noi property_value : Q) :
  match calculate_cap_rate noi property_value with
  | Ok rate => 0 < property_value /\ rate * property_value == noi
  | Raise e =>
      property_value <= 0
      /\ e = ValueError "Property value must be greater than zero"
  end.
Proof. apply guarded_ratio. Qed.

(** X2.  ROI, cash-on-cash return and loan-to-value guard their divisor the
    same way: a result only for a positive basis, [ValueError] otherwise,
    and never a division by zero. *)
Theorem guarded_ratios_never_divide_by_zero (numerator basis : Q) :
  match calculate_roi basis numerator with
  | Ok ratio => 0 < basis /\ ratio * basis == numerator
  | Raise e =>
      basis <= 0 /\ e = ValueError "Total investment must be greater than zero"
  end
  /\ match calculate_cash_on_cash_return numerator basis with
     | Ok ratio => 0 < basis /\ ratio * basis == numerator
     | Raise e =>
         basis <= 0
         /\ e = ValueError "Total cash invested must be greater than zero"
     end
  /\ match calculate_loan_to_value numerator basis with
     | Ok ratio => 0 < basis /\ ratio * basis == numerator
     | Raise e =>
         basis <= 0
         /\ e = ValueError "Property value must be greater than zero"
     end.
Proof. repeat split; apply guarded_ratio. Qed.

(** X3.  The total return has no guard: a zero purchase price divides by zero,
    and every other price, negative ones included, gives the gain plus the
    net income per unit of price. *)
Theorem total_return_unguarded
    (purchase_price sale_price total_income total_expenses : Q) :
  match calculate_total_return purchase_price sale_price total_income
          total_expenses with
  | Ok total_return =>
      ~ purchase_price == 0
      /\ total_return * purchase_price
         == (sale_price - purchase_price) + (total_income - total_expenses)
  | Raise e => purchase_price == 0 /\ e = ZeroDivisionError
  end.
Proof.
  unfold calculate_total_return, div.
  destruct (eq_reflect purchase_price 0) as [Hz | Hnz].
  - split; [exact Hz | reflexivity].
  - split; [exact Hnz |]. field. exact Hnz.
Qed.

(** Setting the economic assumptions twice is setting them once with the
    later value of each, the earlier one where the later call passes
    [None]; and each value set is the value read. *)
Theorem economic_assumptions_last_write_wins
    (self : FinancialCalculator.t) (inflation appreciation inflation'
     appreciation' : option Q) :
  set_economic_assumptions
    (set_economic_assumptions self inflation appreciation)
    inflation' appreciation'
  = set_economic_assumptions self
      (match inflation' with Some _ => inflation' | None => inflation end)
      (match appreciation' with Some _ => appreciation' | None => appreciation end)
  /\ inflation_rate (set_economic_assumptions self inflation appreciation)
     = get inflation (inflation_rate self)
  /\ property_appreciation_rate
       (set_economic_assumptions self inflation appreciation)
     = get appreciation (property_appreciation_rate self).
Proof.
  destruct self, inflation, appreciation, inflation', appreciation';
    repeat split.
Qed.

(** X4.  Appreciation compounds: the value after [a + b] years is the value
    after [b] more years of the value after [a] years, for any signs of
    [a] and [b], as long as the growth factor is not zero. *)
Theorem future_value_compounds
    (self : FinancialCalculator.t) (current_value rate : Q) (a b : Z) :
  ~ 1 + rate == 0 ->
  exists after_a after_both direct,
    estimate_future_value self current_value a (Some rate) = Ok after_a
    /\ estimate_future_value self after_a b (Some rate) = Ok after_both
    /\ estimate_future_value self current_value (a + b) (Some rate) = Ok direct
    /\ after_both == direct.
Proof.
  intros Hnz. unfold estimate_future_value.
  rewrite !pow_ok by exact Hnz. cbn [bind].
  eexists _, _, _. repeat split.
  rewrite Qpower_plus by exact Hnz. ring.
Qed.

Lemma future_value_compounds_witness :
  exists after_a after_both direct,
    estimate_future_value init 200000 3 (Some (3 # 100)) = Ok after_a
    /\ estimate_future_value init after_a (-1) (Some (3 # 100)) = Ok after_both
    /\ estimate_future_value init 200000 (3 + -1) (Some (3 # 100)) = Ok direct
    /\ after_both == direct.
Proof.
  apply (future_value_compounds init 200000 (3 # 100) 3 (-1)). discriminate.
Defined.


End Ratios.

Section Comparables.
Import Py FinancialCalculator InvestmentAnalysis.

Lemma add_price_raised (comps : list (option Q)) (e : Exc.exn) :
  fold_left add_price comps (Exc.Raise e) = Exc.Raise e.
Proof. induction comps as [| c comps IH]; [reflexivity | exact IH]. Qed.

Lemma add_price_all_present (prices : list Q) (total : Q) :
  exists total',
    fold_left add_price (map Some prices) (Exc.Ok total) = Exc.Ok total'
    /\ total' == total + PropertyAnalyzer.sum prices.
Proof.
  revert total. induction prices as [| p prices IH]; intros total.
  - exists total. split; [reflexivity |]. cbn. ring.
  - cbn [map fold_left]. destruct (IH (total + p)) as (t & Ht & Hs).
    exists t. split; [exact Ht |]. rewrite Hs, sum_cons. ring.
Qed.

Lemma add_price_missing (comps : list (option Q)) (total : Q) :
  In None comps ->
  fold_left add_price comps (Exc.Ok total) = Exc.Raise (Exc.KeyError "price").
Proof.
  revert total. induction comps as [| c comps IH]; intros total Hin.
  - contradiction.
  - cbn [fold_left]. destruct c as [p |].
    + apply IH. destruct Hin as [Hin | Hin]; [discriminate | exact Hin].
    + apply add_price_raised.
Qed.

Lemma sum_within (prices : list Q) (lo hi : Q) :
  Forall (fun p => lo <= p /\ p <= hi) prices ->
  inject_Z (Z.of_nat (List.length prices)) * lo <= PropertyAnalyzer.sum prices
  /\ PropertyAnalyzer.sum prices <= inject_Z (Z.of_nat (List.length prices)) * hi.
Proof.
  induction 1 as [| p prices [Hlo Hhi] _ [IHlo IHhi]].
  - unfold PropertyAnalyzer.sum. cbn [List.length fold_left Z.of_nat].
    change (inject_Z 0) with 0. split; lra.
  - cbn [List.length]. rewrite Nat2Z.inj_succ, <- Z.add_1_r, inject_Z_plus.
    change (inject_Z 1) with 1. rewrite sum_cons. split; lra.
Qed.

(** X6.  The value estimated from comparables that all carry a price is their
    mean: it times the number of comparables is the sum of the prices, and
    it lies between any two bounds that hold of every price. *)
Theorem value_by_comps_is_a_mean (prices : list Q) (lo hi : Q) :
  prices <> [] ->
  Forall (fun p => lo <= p /\ p <= hi) prices ->
  exists value,
    calculate_value_by_comps (map Some prices) = Exc.Ok value
    /\ value * inject_Z (Z.of_nat (List.length prices))
       == PropertyAnalyzer.sum prices
    /\ lo <= value /\ value <= hi.
Proof.
  intros Hne Hall.
  destruct (add_price_all_present prices 0) as (total & Htotal & Hsum).
  assert (Hn : 0 < inject_Z (Z.of_nat (List.length prices))).
  { destruct prices; [congruence |]. cbn [List.length].
    rewrite <- (Zlt_Qlt 0). lia. }
  assert (Hcall : calculate_value_by_comps (map Some prices)
                  = total_value <~ total_price (map Some prices) ;;
                    Exc.lift
                      (div total_value
                         (inject_Z (Z.of_nat (List.length (map Some prices))))))
    by (destruct prices; [congruence | reflexivity]).
  rewrite Hcall. unfold total_price. rewrite Htotal. cbn [Exc.bind].
  rewrite length_map, div_ok by lra. cbn [Exc.lift].
  eexists. split; [reflexivity |].
  destruct (sum_within prices lo hi Hall) as [Hlo Hhi].
  set (n := inject_Z (Z.of_nat (List.length prices))) in *.
  assert (Hv : total / n * n == PropertyAnalyzer.sum prices)
    by (rewrite Hsum; field; lra).
  split; [exact Hv |].
  split.
  - apply Qmult_le_r with n; [exact Hn |]. rewrite Hv. lra.
  - apply Qmult_le_r with n; [exact Hn |]. rewrite Hv. lra.
Qed.

Lemma value_by_comps_is_a_mean_witness :
  exists value,
    calculate_value_by_comps (map Some [300000; 320000; 310000]) = Exc.Ok value
    /\ value * inject_Z (Z.of_nat (List.length [300000; 320000; 310000]))
       == PropertyAnalyzer.sum [300000; 320000; 310000]
    /\ 300000 <= value /\ value <= 320000.
Proof.
  apply (value_by_comps_is_a_mean [300000; 320000; 310000] 300000 320000).
  - discriminate.
  - repeat constructor; discriminate.
Defined.

(** X7.  No comparable at all is refused with [ValueError]; a comparable
    without a price stops the estimate with [KeyError], whatever the other
    comparables hold. *)
Theorem value_by_comps_errors (comps : list (option Q)) :
  calculate_value_by_comps []
  = Exc.Raise
      (Exc.Builtin (ValueError "At least one comparable property is required"))
  /\ (In None comps ->
      calculate_value_by_comps comps = Exc.Raise (Exc.KeyError "price")).
Proof.
  split; [reflexivity |]. intros Hin.
  unfold calculate_value_by_comps, total_price.
  destruct comps as [| c comps]; [contradiction |].
  rewrite (add_price_missing _ 0 Hin). reflexivity.
Qed.

Lemma value_by_comps_errors_witness :
  calculate_value_by_comps [Some 300000; None; Some 310000]
  = Exc.Raise (Exc.KeyError "price").
Proof.
  apply (value_by_comps_errors [Some 300000; None; Some 310000]).
  right. left. reflexivity.
Defined.

End Comparables.

(** ** The cash-flow projection *)

Section Projection.
Import Py FinancialCalculator.

Lemma range_snoc (n : nat) :
  range 1 (Z.of_nat (S n) + 1) = range 1 (Z.of_nat n + 1) ++ [(Z.of_nat n + 1)%Z].
Proof.
  unfold range.
  replace (Z.to_nat (Z.of_nat (S n) + 1 - 1)) with (S n) by lia.
  replace (Z.to_nat (Z.of_nat n + 1 - 1)) with n by lia.
  rewrite seq_S, map_app. cbn [map Nat.add]. f_equal. f_equal. lia.
Qed.

Lemma range_of_count (years : Z) :
  range 1 (years + 1) = range 1 (Z.of_nat (Z.to_nat years) + 1).
Proof. unfold range. do 2 f_equal. lia. Qed.

Lemma pow_nonnegative_exponent (b : Q) (e : Z) :
  (0 <= e)%Z -> pow b e = Ok (b ^ e).
Proof.
  intros He. unfold pow. destruct (Z.ltb_spec e 0) as [H | _]; [lia |].
  now rewrite andb_false_r.
Qed.

Lemma sum_snoc (l : list Q) (x : Q) :
  PropertyAnalyzer.sum (l ++ [x]) == PropertyAnalyzer.sum l + x.
Proof.
  induction l as [| y l IH].
  - cbn. ring.
  - cbn [app]. rewrite !sum_cons, IH. ring.
Qed.

Variable self : FinancialCalculator.t.
Variables annual_income annual_expenses mortgage_payment : Q.

(** The rows built for the first [n] years. *)
Lemma projection_prefix (n : nat) :
  exists rows,
    fold_left
      (projection_step self annual_income annual_expenses mortgage_payment)
      (range 1 (Z.of_nat n + 1)) (Ok [])
    = Ok rows
    /\ List.length rows = n
    /\ forall k row,
         nth_error rows k = Some row ->
         Year row = (Z.of_nat k + 1)%Z
         /\ Income row = annual_income * (1 + inflation_rate self) ^ Z.of_nat k
         /\ Expenses row
            = annual_expenses * (1 + inflation_rate self) ^ Z.of_nat k
         /\ NOI row = Income row - Expenses row
         /\ Mortgage_Payment row = mortgage_payment
         /\ Cash_Flow row = NOI row - mortgage_payment
         /\ Cumulative_Cash_Flow row
            == PropertyAnalyzer.sum (map Cash_Flow (firstn (S k) rows)).
Proof.
  induction n as [| n (rows & Hfold & Hlen & Hrows)].
  - exists []. split; [reflexivity |]. split; [reflexivity |].
    intros [| k] row H; discriminate H.
  - rewrite range_snoc, fold_left_app, Hfold. cbn [fold_left].
    unfold projection_step at 1. cbn [bind].
    rewrite !pow_nonnegative_exponent by lia. cbn [bind].
    replace (Z.of_nat n + 1 - 1)%Z with (Z.of_nat n) by lia.
    set (income := annual_income * (1 + inflation_rate self) ^ Z.of_nat n).
    set (expenses := annual_expenses * (1 + inflation_rate self) ^ Z.of_nat n).
    assert (Hcum : exists cumulative,
               (if (Z.of_nat n + 1 =? 1)%Z
                then Ok (income - expenses - mortgage_payment)
                else match last (map Some rows) None with
                     | Some prev =>
                         Ok (Cumulative_Cash_Flow prev
                             + (income - expenses - mortgage_payment))
                     | None => Raise IndexError
                     end) = Ok cumulative
               /\ cumulative
                  == PropertyAnalyzer.sum (map Cash_Flow rows)
                     + (income - expenses - mortgage_payment)).
    { destruct (Z.eqb_spec (Z.of_nat n + 1) 1) as [E | N].
      - eexists. split; [reflexivity |].
        assert (Hn : n = O) by lia. rewrite Hn in Hlen.
        destruct rows; [| discriminate Hlen]. cbn. ring.
      - assert (Hne : rows <> []) by (intros ->; cbn in Hlen; lia).
        destruct (exists_last Hne) as (rows' & r & ->).
        rewrite map_app. cbn [map]. rewrite last_last.
        eexists. split; [reflexivity |].
        rewrite length_app in Hlen. cbn [List.length] in Hlen.
        destruct (Hrows (List.length rows') r) as (_ & _ & _ & _ & _ & _ & Hc).
        { rewrite nth_error_app2 by lia. now rewrite Nat.sub_diag. }
        rewrite Hc. rewrite firstn_all2 by (rewrite length_app; cbn; lia).
        reflexivity. }
    destruct Hcum as (cumulative & -> & Hcumulative). cbn [bind].
    eexists. split; [reflexivity |].
    split; [rewrite length_app; cbn [List.length]; lia |].
    intros k row Hk.
    destruct (Nat.lt_ge_cases k n) as [Hlt | Hge].
    + rewrite nth_error_app1 in Hk by lia.
      destruct (Hrows k row Hk) as (H1 & H2 & H3 & H4 & H5 & H6 & H7).
      repeat (split; [assumption |]).
      rewrite firstn_app.
      replace (S k - List.length rows)%nat with O by lia.
      cbn [firstn]. rewrite app_nil_r. exact H7.
    + rewrite nth_error_app2 in Hk by lia.
      assert (k = n).
      { destruct (k - List.length rows)%nat as [| m] eqn:E;
          [lia | destruct m; discriminate Hk]. }
      subst k. rewrite Hlen, Nat.sub_diag in Hk. injection Hk as <-.
      cbn [Year Income Expenses NOI Mortgage_Payment Cash_Flow
           Cumulative_Cash_Flow].
      repeat (split; [reflexivity |]).
      rewrite firstn_all2 by (rewrite length_app; cbn [List.length]; lia).
      rewrite map_app. cbn [map Cash_Flow]. rewrite sum_snoc. exact Hcumulative.
Qed.

End Projection.

Section ProjectionProperties.
Import Py FinancialCalculator.

Lemma sum_constant (l : list Q) (c : Q) :
  Forall (fun x => x == c) l ->
  PropertyAnalyzer.sum l == inject_Z (Z.of_nat (List.length l)) * c.
Proof.
  induction 1 as [| x l Hx _ IH].
  - cbn. ring.
  - cbn [List.length]. rewrite Nat2Z.inj_succ, <- Z.add_1_r, inject_Z_plus.
    change (inject_Z 1) with 1. rewrite sum_cons, IH, Hx. ring.
Qed.


(** X9.  The cumulative cash flow of every row is the sum of the cash flows of
    the rows up to and including it. *)
Theorem projection_cumulative_is_running_sum
    (self : FinancialCalculator.t)
    (initial_investment annual_income annual_expenses mortgage_payment : Q)
    (years : Z) :
  exists rows,
    calculate_cash_flow_projection self initial_investment annual_income
      annual_expenses mortgage_payment years = Ok rows
    /\ forall k row,
         nth_error rows k = Some row ->
         Cumulative_Cash_Flow row
         == PropertyAnalyzer.sum (map Cash_Flow (firstn (S k) rows)).
Proof.
  unfold calculate_cash_flow_projection. rewrite range_of_count.
  destruct (projection_prefix self annual_income annual_expenses
              mortgage_payment (Z.to_nat years)) as (rows & Hfold & Hlen & Hrows).
  exists rows. split; [exact Hfold |].
  intros k row Hk. now destruct (Hrows k row Hk) as (_ & _ & _ & _ & _ & _ & H).
Qed.

(** X10.  Without inflation every year has the same cash flow, income less
    expenses less the mortgage payment, and the cumulative cash flow after
    [k + 1] years is [k + 1] times that. *)
Theorem projection_without_inflation
    (self : FinancialCalculator.t)
    (initial_investment annual_income annual_expenses mortgage_payment : Q)
    (years : Z) :
  inflation_rate self == 0 ->
  exists rows,
    calculate_cash_flow_projection self initial_investment annual_income
      annual_expenses mortgage_payment years = Ok rows
    /\ forall k row,
         nth_error rows k = Some row ->
         Cash_Flow row == annual_income - annual_expenses - mortgage_payment
         /\ Cumulative_Cash_Flow row
            == inject_Z (Z.of_nat (S k))
               * (annual_income - annual_expenses - mortgage_payment).
Proof.
  intros Hzero.
  unfold calculate_cash_flow_projection. rewrite range_of_count.
  destruct (projection_prefix self annual_income annual_expenses
              mortgage_payment (Z.to_nat years)) as (rows & Hfold & Hlen & Hrows).
  exists rows. split; [exact Hfold |].
  assert (Hflat : forall k row,
             nth_error rows k = Some row ->
             Cash_Flow row == annual_income - annual_expenses - mortgage_payment).
  { intros k row Hk.
    destruct (Hrows k row Hk) as (_ & Hi & He & Hn & _ & Hc & _).
    rewrite Hc, Hn, Hi, He, Hzero.
    assert (Hone : (1 + 0) ^ Z.of_nat k == 1)
      by (setoid_replace (1 + 0) with 1 by ring; apply Qpower_1).
    rewrite Hone. ring. }
  intros k row Hk. split; [now apply Hflat with k |].
  destruct (Hrows k row Hk) as (_ & _ & _ & _ & _ & _ & Hcum).
  rewrite Hcum, sum_constant with (c := annual_income - annual_expenses - mortgage_payment).
  - rewrite length_map, length_firstn.
    assert (k < List.length rows)%nat by (apply nth_error_Some; congruence).
    replace (Nat.min (S k) (List.length rows)) with (S k) by lia. reflexivity.
  - apply Forall_forall. intros x Hx.
    apply in_map_iff in Hx. destruct Hx as (r & <- & Hr).
    apply (In_nth_error _ _) in Hr. destruct Hr as (j & Hj).
    rewrite nth_error_firstn in Hj.
    destruct (Nat.ltb j (S k)); [| discriminate Hj].
    now apply Hflat with j.
Qed.

Lemma projection_without_inflation_witness :
  exists rows,
    calculate_cash_flow_projection (FinancialCalculator.mk 0 (3 # 100))
      50000 24000 9000 12000 5 = Ok rows
    /\ forall k row,
         nth_error rows k = Some row ->
         Cash_Flow row == 24000 - 9000 - 12000
         /\ Cumulative_Cash_Flow row
            == inject_Z (Z.of_nat (S k)) * (24000 - 9000 - 12000).
Proof.
  apply (projection_without_inflation (FinancialCalculator.mk 0 (3 # 100))
           50000 24000 9000 12000 5).
  reflexivity.
Defined.

End ProjectionProperties.

(** ** The rows of the amortization schedule *)

Section ScheduleRows.
Import Py FinancialCalculator.

Variables monthly_rate monthly_payment : Q.

(** What a row of the schedule satisfies on its own. *)
Lemma step_row (st : list entry * Q) (payment_num : Z) :
  exists e,
    fst (schedule_step monthly_rate monthly_payment st payment_num) = fst st ++ [e]
    /\ Payment e = payment_num
    /\ Payment_Amount e = monthly_payment
    /\ Interest e = snd st * monthly_rate
    /\ Principal e = monthly_payment - Interest e
    /\ snd (schedule_step monthly_rate monthly_payment st payment_num)
       == snd st - Principal e.
Proof.
  destruct st as [schedule balance]. cbn [schedule_step fst snd].
  eexists. split; [reflexivity |]. cbn [Payment Payment_Amount Interest Principal].
  repeat (split; [reflexivity |]). apply Qred_correct.
Qed.

Lemma loop_rows (nums : list Z) (st : list entry * Q) :
  map Payment (fst (fold_left (schedule_step monthly_rate monthly_payment) nums st))
  = map Payment (fst st) ++ nums
  /\ (Forall (fun e => Payment_Amount e = monthly_payment
                       /\ Principal e + Interest e == monthly_payment) (fst st) ->
      Forall (fun e => Payment_Amount e = monthly_payment
                       /\ Principal e + Interest e == monthly_payment)
             (fst (fold_left (schedule_step monthly_rate monthly_payment) nums st)))
  /\ snd (fold_left (schedule_step monthly_rate monthly_payment) nums st)
     + PropertyAnalyzer.sum
         (map Principal
            (fst (fold_left (schedule_step monthly_rate monthly_payment) nums st)))
     == snd st + PropertyAnalyzer.sum (map Principal (fst st)).
Proof.
  revert st. induction nums as [| n nums IH]; intros st.
  - cbn [fold_left]. rewrite app_nil_r. repeat split; auto; reflexivity.
  - cbn [fold_left].
    destruct (IH (schedule_step monthly_rate monthly_payment st n))
      as (Hnums & Hrows & Hsum).
    destruct (step_row st n) as (e & He & Hn & Ha & Hi & Hp & Hb).
    rewrite He in Hnums, Hrows, Hsum. split; [| split].
    + rewrite Hnums, map_app, <- app_assoc. cbn [map app]. now rewrite Hn.
    + intros Hst. apply Hrows. apply Forall_app. split; [exact Hst |].
      constructor; [| constructor]. split; [exact Ha |]. rewrite Hp. ring.
    + rewrite Hsum, Hb, map_app. cbn [map]. rewrite sum_snoc. ring.
Qed.

End ScheduleRows.

Section ScheduleProperties.
Import Py FinancialCalculator.

(** X11.  Whatever the loan, the schedule fails exactly when the payment does,
    with the same exception; otherwise it has one row per payment of a
    positive term and none for a negative term, the rows are numbered from
    1 in order, every row carries the monthly payment, its principal and
    interest add up to that payment, and its recorded balance is not
    negative. *)
Theorem schedule_rows (loan_amount interest_rate : Q) (loan_term_years : Z) :
  match calculate_amortization_schedule loan_amount interest_rate
          loan_term_years,
        calculate_mortgage_payment loan_amount interest_rate loan_term_years with
  | Ok rows, Ok payment =>
      List.length rows = Z.to_nat (loan_term_years * 12)
      /\ map Payment rows = range 1 (loan_term_years * 12 + 1)
      /\ Forall (fun e => Payment_Amount e = payment
                          /\ Principal e + Interest e == payment
                          /\ 0 <= Remaining_Balance e) rows
  | Raise e, Raise e' => e = e'
  | _, _ => False
  end.
Proof.
  unfold calculate_amortization_schedule.
  destruct (calculate_mortgage_payment loan_amount interest_rate loan_term_years)
    as [payment | e]; cbn [bind]; [| reflexivity].
  set (nums := range 1 (loan_term_years * 12 + 1)).
  destruct (loop_rows (interest_rate / 12) payment nums ([], loan_amount))
    as (Hnums & Hrows & _).
  split; [| split].
  - rewrite loop_length. unfold nums. rewrite range_length. cbn. f_equal. lia.
  - exact Hnums.
  - pose proof (loop_nonnegative (interest_rate / 12) payment nums
                  ([], loan_amount) (Forall_nil _)) as Hnn.
    specialize (Hrows (Forall_nil _)).
    rewrite Forall_forall in *. intros e He.
    destruct (Hrows e He) as [H1 H2]. repeat split; auto.
Qed.



End ScheduleProperties.

Section BalanceDecreases.
Import Py FinancialCalculator.

Variables monthly_rate monthly_payment : Q.






End BalanceDecreases.

Section BalanceProperties.
Import Py FinancialCalculator.



End BalanceProperties.

(** ** The investment analysis *)

Section Analysis.
Import Py FinancialCalculator InvestmentAnalysis.

Variable np_irr : list Q -> result Q.
Variable self : FinancialCalculator.t.

(** X14.  Whenever [analyze_investment] returns, the property value and the
    down payment are positive and the figures agree with each other:
    twelve monthly payments make the annual one, the cash flow is NOI less
    debt service, and the three ratios give their numerators back. *)
Theorem analysis_is_consistent (d : investment_data) :
  match analyze_investment np_irr self d with
  | Exc.Ok r =>
      0 < get (current_value d) (get (purchase_price d) 0)
      /\ 0 < get (down_payment d) 0
      /\ annual_mortgage r = monthly_mortgage r * 12
      /\ noi r = get (annual_income d) 0 - get (annual_expenses d) 0
      /\ annual_cash_flow r = noi r - annual_mortgage r
      /\ monthly_cash_flow r * 12 == annual_cash_flow r
      /\ cap_rate r * get (current_value d) (get (purchase_price d) 0) == noi r
      /\ cash_on_cash_return r * get (down_payment d) 0 == annual_cash_flow r
      /\ loan_to_value r * get (current_value d) (get (purchase_price d) 0)
         == get (purchase_price d) 0 - get (down_payment d) 0
  | Exc.Raise _ => True
  end.
Proof.
  unfold analyze_investment.
  destruct (calculate_mortgage_payment
              (get (purchase_price d) 0 - get (down_payment d) 0)
              (get (interest_rate d) (4 # 100))
              (get (loan_term_years d) 30%Z)) as [mm | e];
    cbn [Exc.lift Exc.bind]; [| exact I].
  unfold calculate_cap_rate, calculate_cash_on_cash_return,
    calculate_loan_to_value.
  match goal with
  | |- context [Exc.lift (if le ?b 0 then Raise (ValueError ?m) else div ?n ?b)] =>
      pose proof (guarded_ratio m n b) as H1;
      destruct (if le b 0 then Raise (ValueError m) else div n b) as [cr | e1];
      cbn [Exc.lift Exc.bind]; [| exact I]
  end.
  match goal with
  | |- context [Exc.lift (if le ?b 0 then Raise (ValueError ?m) else div ?n ?b)] =>
      pose proof (guarded_ratio m n b) as H2;
      destruct (if le b 0 then Raise (ValueError m) else div n b) as [coc | e2];
      cbn [Exc.lift Exc.bind]; [| exact I]
  end.
  match goal with
  | |- context [Exc.lift (if le ?b 0 then Raise (ValueError ?m) else div ?n ?b)] =>
      pose proof (guarded_ratio m n b) as H3;
      destruct (if le b 0 then Raise (ValueError m) else div n b) as [ltv | e3];
      cbn [Exc.lift Exc.bind]; [| exact I]
  end.
  destruct H1 as [Hv H1], H2 as [Hd H2], H3 as [_ H3].
  assert (Hmonthly : forall x : Q, x / 12 * 12 == x) by (intros x; field).
  destruct (holding_period_years d) as [[| years | years] |];
    try (cbn [monthly_mortgage annual_mortgage noi annual_cash_flow
              monthly_cash_flow cap_rate cash_on_cash_return loan_to_value];
         repeat split; solve [assumption | reflexivity | apply Hmonthly]);
    (destruct (estimate_future_value self _ _ None) as [fv | ?];
       cbn [Exc.lift Exc.bind]; [| exact I];
     destruct (calculate_cash_flow_projection self _ _ _ _ _) as [rows | ?];
       cbn [Exc.lift Exc.bind]; [| exact I];
     destruct (irr_cash_flows _ _ _ _ _ _ _) as [flows | ?];
       cbn [Exc.bind]; [| exact I];
     cbn [monthly_mortgage annual_mortgage noi annual_cash_flow
          monthly_cash_flow cap_rate cash_on_cash_return loan_to_value];
     repeat split; solve [assumption | reflexivity | apply Hmonthly]).
Qed.

End Analysis.

Section AnalysisSteps.
Import Py FinancialCalculator InvestmentAnalysis.






End AnalysisSteps.

Section AnalysisEdges.
Import Py FinancialCalculator InvestmentAnalysis.

Variable np_irr : list Q -> result Q.
Variable self : FinancialCalculator.t.





End AnalysisEdges.

Section SaleProceeds.
Import Py FinancialCalculator InvestmentAnalysis.





End SaleProceeds.

Section AnalysisWitnesses.
Import Py FinancialCalculator InvestmentAnalysis.




End AnalysisWitnesses.

(** ** Risk levels and risk factors *)

Section RiskLevels.
Import Py RiskAssessor.
Local Open Scope string_scope.

Lemma risk_level_cases (score : Q) :
  (_get_risk_level init score = "low" <-> score < 3)
  /\ (_get_risk_level init score = "medium" <-> 3 <= score /\ score < 6)
  /\ (_get_risk_level init score = "high" <-> 6 <= score /\ score < 8)
  /\ (_get_risk_level init score = "very high" <-> 8 <= score).
Proof.
  unfold _get_risk_level. cbn [threshold_low threshold_medium threshold_high init].
  destruct (lt_reflect score 3); [| destruct (lt_reflect score 6);
                                    [| destruct (lt_reflect score 8)]];
    repeat split; intros; try discriminate; try reflexivity; lra.
Qed.

(** X19.  The four levels partition the scores at 3, 6 and 8, each threshold
    belonging to the level above it. *)
Theorem risk_levels_partition_the_scale (score : Q) :
  (_get_risk_level init score = "low" <-> score < 3)
  /\ (_get_risk_level init score = "medium" <-> 3 <= score /\ score < 6)
  /\ (_get_risk_level init score = "high" <-> 6 <= score /\ score < 8)
  /\ (_get_risk_level init score = "very high" <-> 8 <= score).
Proof. exact (risk_level_cases score). Qed.

Lemma market_label (d : market_data) :
  assessment (assess_market_risk init d)
  = _get_risk_level init (score (assess_market_risk init d)).
Proof.
  unfold assess_market_risk.
  repeat match goal with
         | |- context [if ?b then _ else _] => destruct b
         end; reflexivity.
Qed.

Lemma financial_label (d : financial_data) :
  assessment (assess_financial_risk init d)
  = _get_risk_level init (score (assess_financial_risk init d)).
Proof.
  unfold assess_financial_risk. destruct (financial_rules d). reflexivity.
Qed.

Lemma property_label (d : property_data) :
  assessment (assess_property_risk init d)
  = _get_risk_level init (score (assess_property_risk init d)).
Proof.
  unfold assess_property_risk.
  repeat match goal with
         | |- context [if ?b then _ else _] => destruct b
         end; reflexivity.
Qed.

Lemma location_label (d : location_data) :
  match assess_location_risk init d with
  | Ok risk => assessment risk = _get_risk_level init (score risk)
  | Raise _ => True
  end.
Proof.
  unfold assess_location_risk.
  destruct (gt (get (crime_rate d) 0) (get (avg_city_crime_rate d) 0)).
  - destruct (div (get (crime_rate d) 0) (get (avg_city_crime_rate d) 1));
      cbn [bind]; [| exact I].
    repeat match goal with
           | |- context [if ?b then _ else _] => destruct b
           end; reflexivity.
  - cbn [bind].
    repeat match goal with
           | |- context [if ?b then _ else _] => destruct b
           end; reflexivity.
Qed.

(** X20.  The overall score is a weighted mean of the four category scores: it
    stays below any bound that all four stay below, and at or above any
    bound that all four reach.  So four categories assessed "low" give an
    overall "low", and four assessed "very high" an overall "very high". *)
Theorem overall_risk_stays_within_the_categories
    (now : Clock.datetime) (property_data : property_data)
    (financial_data : financial_data) (location_data : location_data)
    (market_data : market_data) :
  match get_overall_risk_assessment init now property_data financial_data
          location_data market_data with
  | Ok overall =>
      (forall bound,
          score (breakdown_market_risk overall) < bound ->
          score (breakdown_location_risk overall) < bound ->
          score (breakdown_financial_risk overall) < bound ->
          score (breakdown_property_risk overall) < bound ->
          overall_score overall < bound)
      /\ (forall bound,
             bound <= score (breakdown_market_risk overall) ->
             bound <= score (breakdown_location_risk overall) ->
             bound <= score (breakdown_financial_risk overall) ->
             bound <= score (breakdown_property_risk overall) ->
             bound <= overall_score overall)
      /\ (assessment (breakdown_market_risk overall) = "low" ->
          assessment (breakdown_location_risk overall) = "low" ->
          assessment (breakdown_financial_risk overall) = "low" ->
          assessment (breakdown_property_risk overall) = "low" ->
          risk_level overall = "low")
      /\ (assessment (breakdown_market_risk overall) = "very high" ->
          assessment (breakdown_location_risk overall) = "very high" ->
          assessment (breakdown_financial_risk overall) = "very high" ->
          assessment (breakdown_property_risk overall) = "very high" ->
          risk_level overall = "very high")
  | Raise _ => True
  end.
Proof.
  pose proof (overall_assessment_fields now property_data financial_data
                location_data market_data) as Ho.
  pose proof (location_label location_data) as Hl.
  pose proof (market_label market_data) as Hm.
  pose proof (financial_label financial_data) as Hf.
  pose proof (property_label property_data) as Hp.
  assert (Hlevel :
            match get_overall_risk_assessment init now property_data
                    financial_data location_data market_data with
            | Ok overall =>
                risk_level overall = _get_risk_level init (overall_score overall)
            | Raise _ => True
            end).
  { unfold get_overall_risk_assessment.
    destruct (assess_location_risk init location_data); cbn [bind];
      [reflexivity | exact I]. }
  destruct (get_overall_risk_assessment init now property_data financial_data
              location_data market_data) as [overall | e]; [| exact I].
  destruct (assess_location_risk init location_data) as [location_risk | e'];
    [| contradiction].
  destruct Ho as (Hscore & Em & El & Ef & Ep & _).
  rewrite Em, El, Ef, Ep, Hscore, Hlevel, Hscore, Hm, Hl, Hf, Hp.
  cbn [weight_market_risk weight_location_risk weight_financial_risk
       weight_property_risk init].
  set (m := score (assess_market_risk init market_data)).
  set (l := score location_risk).
  set (f := score (assess_financial_risk init financial_data)).
  set (p := score (assess_property_risk init property_data)).
  split; [intros; lra |]. split; [intros; lra |]. split.
  - intros H1 H2 H3 H4.
    apply (proj1 (risk_level_cases _)) in H1, H2, H3, H4.
    apply (proj1 (risk_level_cases _)). lra.
  - intros H1 H2 H3 H4.
    destruct (risk_level_cases m) as (_ & _ & _ & Vm).
    destruct (risk_level_cases l) as (_ & _ & _ & Vl).
    destruct (risk_level_cases f) as (_ & _ & _ & Vf).
    destruct (risk_level_cases p) as (_ & _ & _ & Vp).
    apply Vm in H1. apply Vl in H2. apply Vf in H3. apply Vp in H4.
    apply (proj2 (proj2 (proj2 (risk_level_cases _)))). lra.
Qed.

End RiskLevels.

Section RiskFactors.
Import Py RiskAssessor.
Local Open Scope string_scope.

(** Splits on every comparison of the function under study, keeping what
    each outcome says. *)
Ltac split_comparisons :=
  repeat match goal with
         | |- context [if gt ?a ?b then _ else _] => destruct (gt_reflect a b)
         | |- context [if lt ?a ?b then _ else _] => destruct (lt_reflect a b)
         end.

Lemma clamp_positive (x : Q) : 0 < x -> 0 < min (max x 0) 10.
Proof.
  intros H. unfold min, max.
  destruct (gt_reflect 0 x); [lra |].
  destruct (lt_reflect 10 x); lra.
Qed.

Lemma clamp_of_zero (x : Q) : x == 0 -> min (max x 0) 10 == 0.
Proof.
  intros H. unfold min, max.
  destruct (gt_reflect 0 x); [lra |].
  destruct (lt_reflect 10 x); lra.
Qed.

(** X21.  Every market rule that fires adds a positive amount: the market score
    is 0 exactly when no factor is reported, and positive otherwise. *)
Theorem market_score_reflects_its_factors (self : t) (d : market_data) :
  (factors (assess_market_risk self d) = [] ->
   score (assess_market_risk self d) == 0)
  /\ (factors (assess_market_risk self d) <> [] ->
      0 < score (assess_market_risk self d)).
Proof.
  unfold assess_market_risk. split_comparisons; cbn [score factors app];
    (split; [intros Hf; try discriminate Hf; apply clamp_of_zero; ring
            | intros Hf; try congruence; apply clamp_positive; lra]).
Qed.

Lemma cash_flow_penalty_positive (cash_flow : Q) :
  cash_flow < 0 -> 0 < min (abs cash_flow / 200) 4.
Proof.
  intros H. unfold min, abs.
  destruct (lt_reflect cash_flow 0); [| contradiction].
  assert (E : - cash_flow / 200 == - cash_flow * (1 # 200)) by reflexivity.
  destruct (lt_reflect 4 (- cash_flow / 200)); lra.
Qed.

(** X22.  Every financial rule that fires adds a positive amount: the financial
    score is 0 exactly when no factor is reported, and positive
    otherwise; and the two cash-flow factors exclude each other. *)
Theorem financial_score_reflects_its_factors (self : t) (d : financial_data) :
  (factors (assess_financial_risk self d) = [] ->
   score (assess_financial_risk self d) == 0)
  /\ (factors (assess_financial_risk self d) <> [] ->
      0 < score (assess_financial_risk self d))
  /\ ~ (In "Negative cash flow" (factors (assess_financial_risk self d))
        /\ In "Low cash flow margin" (factors (assess_financial_risk self d))).
Proof.
  unfold assess_financial_risk, financial_rules.
  set (cash_flow := get (monthly_cash_flow d) 0).
  destruct (lt_reflect cash_flow 0) as [Hneg | Hnn];
    [pose proof (cash_flow_penalty_positive cash_flow Hneg) as Hpen;
     set (penalty := min (abs cash_flow / 200) 4) in *
    | destruct (lt_reflect cash_flow 200)];
    split_comparisons; cbn [score factors app];
    (split; [intros Hf; try discriminate Hf; apply clamp_of_zero; ring |];
     split; [intros Hf; try congruence; apply clamp_positive; lra |];
     cbn [In]; intros [H1 H2];
     repeat match goal with
            | H : _ \/ _ |- _ => destruct H
            | H : False |- _ => destruct H
            | H : _ = _ |- _ => discriminate H
            end).
Qed.

End RiskFactors.

Section RiskDefaults.
Import Py RiskAssessor.
Local Open Scope string_scope.

Lemma lower_ascii_idempotent (c : ascii) :
  lower_ascii (lower_ascii c) = lower_ascii c.
Proof. destruct c as [[] [] [] [] [] [] [] []]; reflexivity. Qed.

Lemma lower_idempotent (s : string) : lower (lower s) = lower s.
Proof.
  induction s as [| c s IH]; [reflexivity |].
  cbn [lower]. now rewrite lower_ascii_idempotent, IH.
Qed.

(** X23.  The property assessor reads the condition without regard to case, and
    a record with no condition is assessed as one in 'good' condition. *)
Theorem property_condition_is_case_insensitive
    (self : t) (age : option Q) (condition : string)
    (is_special_use : option bool) (recent_major_repairs : option (list string))
    (has_obsolete_features : option bool) :
  assess_property_risk self
    (mk_property_data age (Some condition) is_special_use recent_major_repairs
       has_obsolete_features)
  = assess_property_risk self
      (mk_property_data age (Some (lower condition)) is_special_use
         recent_major_repairs has_obsolete_features)
  /\ assess_property_risk self
       (mk_property_data age None is_special_use recent_major_repairs
          has_obsolete_features)
     = assess_property_risk self
         (mk_property_data age (Some "GOOD") is_special_use
            recent_major_repairs has_obsolete_features).
Proof.
  split.
  - unfold assess_property_risk. cbn [get RiskAssessor.condition].
    now rewrite lower_idempotent.
  - reflexivity.
Qed.

(** X24.  Without a city average the location assessor never fails, compares
    the crime rate with 0 and divides it by 1: any positive crime rate is
    reported first in the factor list as above average. *)
Theorem location_without_city_average (self : t) (d : location_data) :
  avg_city_crime_rate d = None ->
  exists risk,
    assess_location_risk self d = Ok risk
    /\ (0 < get (crime_rate d) 0 ->
        hd_error (factors risk) = Some "Above average crime rate").
Proof.
  intros Havg. unfold assess_location_risk. rewrite Havg. cbn [get].
  destruct (gt_reflect (get (crime_rate d) 0) 0) as [Hpos | Hnot].
  - unfold div. change (eq 1 0) with false. cbn [bind].
    repeat match goal with
           | |- context [if ?b then _ else _] => destruct b
           end;
      (eexists; split; [reflexivity | intros _; reflexivity]).
  - cbn [bind].
    repeat match goal with
           | |- context [if ?b then _ else _] => destruct b
           end;
      (eexists; split; [reflexivity | intros H; contradiction]).
Qed.

Lemma location_without_city_average_witness :
  exists risk,
    assess_location_risk init
      (mk_location_data (Some (2 # 100)) None None None None None) = Ok risk
    /\ (0 < get (crime_rate
                   (mk_location_data (Some (2 # 100)) None None None None None))
              0 ->
        hd_error (factors risk) = Some "Above average crime rate").
Proof.
  apply (location_without_city_average init
           (mk_location_data (Some (2 # 100)) None None None None None)).
  reflexivity.
Defined.

End RiskDefaults.

(** ** Scoring a property *)

Section ScoreInvariance.
Import Py PropertyAnalyzer.

Variable self : PropertyAnalyzer.t.



End ScoreInvariance.

Section ScoreInvarianceWitness.
Import Py PropertyAnalyzer.
Local Open Scope string_scope.


End ScoreInvarianceWitness.

Section FeatureScores.
Import Py PropertyAnalyzer.
Local Open Scope string_scope.

Lemma location_score_on_scale (d : property_data) :
  0 <= _calculate_location_score d /\ _calculate_location_score d <= 10.
Proof. unfold _calculate_location_score. apply clamp_10_0. Qed.

(** Splits on the presence of each key that [evaluate_features] tests. *)
Ltac split_keys d :=
  destruct d as [location_rating condition square_footage year_built amenities
                 school_rating crime_rate future_development_rating
                 ? ? ? ? ? ? ?];
  destruct location_rating, condition, square_footage, year_built, amenities,
    school_rating, crime_rate, future_development_rating.

Lemma feature_keys (now : Clock.datetime) (d : property_data) :
  hd_error (keys (evaluate_features now d)) = Some "location"
  /\ nodup string_dec (keys (evaluate_features now d))
     = keys (evaluate_features now d)
  /\ forallb (fun key => mem key (keys (feature_weights init)))
       (keys (evaluate_features now d)) = true
  /\ used_weight init (evaluate_features now d)
     == PropertyAnalyzer.sum
          (map (weight_of init) (keys (evaluate_features now d)))
  /\ Qle_bool (1 # 4)
       (PropertyAnalyzer.sum
          (map (weight_of init) (keys (evaluate_features now d)))) = true.
Proof.
  unfold used_weight, keys. rewrite <- map_map.
  split_keys d; unfold evaluate_features;
    cbn [PropertyAnalyzer.location_rating PropertyAnalyzer.condition
         PropertyAnalyzer.square_footage PropertyAnalyzer.year_built
         PropertyAnalyzer.amenities PropertyAnalyzer.school_rating
         PropertyAnalyzer.crime_rate PropertyAnalyzer.future_development_rating
         app map fst];
    repeat split; reflexivity.
Qed.

(** X26.  The feature scores always start with the location, name every feature
    at most once, name only features of the weight table, and carry at
    least the weight of the location, a quarter of the total. *)
Theorem feature_scores_are_keyed_by_the_vocabulary
    (now : Clock.datetime) (d : property_data) :
  hd_error (keys (evaluate_features now d)) = Some "location"
  /\ NoDup (keys (evaluate_features now d))
  /\ incl (keys (evaluate_features now d)) (keys (feature_weights init))
  /\ 1 # 4 <= used_weight init (evaluate_features now d).
Proof.
  destruct (feature_keys now d) as (Hhd & Hnd & Hin & Hw & Hq).
  split; [exact Hhd |]. split; [| split].
  - rewrite <- Hnd. apply NoDup_nodup.
  - intros key Hkey. rewrite forallb_forall in Hin.
    specialize (Hin key Hkey). unfold mem in Hin.
    apply existsb_exists in Hin. destruct Hin as (k & Hk & E).
    apply String.eqb_eq in E. now subst k.
  - rewrite Hw. now apply Qle_bool_iff.
Qed.

Lemma feature_scores_clamped (now : Clock.datetime) (d : property_data) :
  (forall rating,
      In (Some rating)
         [ PropertyAnalyzer.location_rating d; PropertyAnalyzer.condition d;
           PropertyAnalyzer.amenities d; PropertyAnalyzer.school_rating d;
           PropertyAnalyzer.future_development_rating d ] ->
      0 <= rating /\ rating <= 10) ->
  Forall (fun item : string * Q => 0 <= snd item /\ snd item <= 10)
         (evaluate_features now d).
Proof.
  intros Hratings.
  split_keys d; unfold evaluate_features;
    cbn [PropertyAnalyzer.location_rating PropertyAnalyzer.condition
         PropertyAnalyzer.square_footage PropertyAnalyzer.year_built
         PropertyAnalyzer.amenities PropertyAnalyzer.school_rating
         PropertyAnalyzer.crime_rate PropertyAnalyzer.future_development_rating
         app] in *;
    repeat (apply Forall_cons;
            [ cbn [snd];
              first [ apply clamp_10_0
                    | apply location_score_on_scale
                    | apply Hratings; cbn [In];
                      repeat (first [ left; reflexivity | right ]) ]
            | ]);
    apply Forall_nil.
Qed.

(** X27.  Size, age, crime and the computed location score are clamped to
    [0, 10]; the ratings are passed through as given.  So when every
    rating given is in [0, 10], every feature score is. *)
Theorem feature_scores_are_on_scale (now : Clock.datetime) (d : property_data) :
  (forall rating,
      In (Some rating)
         [ PropertyAnalyzer.location_rating d; PropertyAnalyzer.condition d;
           PropertyAnalyzer.amenities d; PropertyAnalyzer.school_rating d;
           PropertyAnalyzer.future_development_rating d ] ->
      0 <= rating /\ rating <= 10) ->
  Forall (fun item : string * Q => 0 <= snd item /\ snd item <= 10)
         (evaluate_features now d).
Proof. apply feature_scores_clamped. Qed.

Lemma feature_scores_are_on_scale_witness :
  Forall (fun item : string * Q => 0 <= snd item /\ snd item <= 10)
         (evaluate_features (Clock.mk 2026 1 1 0 0 0)
            (mk_property_data (Some 8) None (Some 1500) (Some 2000) None None
               (Some (2 # 100)) None None None None None None None None)).
Proof.
  apply (feature_scores_are_on_scale (Clock.mk 2026 1 1 0 0 0)
           (mk_property_data (Some 8) None (Some 1500) (Some 2000) None None
              (Some (2 # 100)) None None None None None None None None)).
  intros rating [H | [H | [H | [H | [H | []]]]]]; try discriminate H.
  injection H as <-. split; discriminate.
Defined.

End FeatureScores.

Section ScoredProperty.
Import Py PropertyAnalyzer.
Local Open Scope string_scope.

(** Rounding to hundredths stays between two whole bounds. *)
Lemma round2_between (x : Q) (a b : Z) :
  inject_Z a <= x -> x <= inject_Z b ->
  inject_Z a <= round2 x /\ round2 x <= inject_Z b.
Proof.
  intros Ha Hb. unfold round2.
  destruct (round_half_even_near (x * 100)) as [Hlo Hhi].
  set (z := round_half_even (x * 100)) in *.
  assert (Hza : (a * 100 <= z)%Z).
  { assert (H : inject_Z (a * 100 - 1) < inject_Z z).
    { replace (a * 100 - 1)%Z with (a * 100 + -1)%Z by lia.
      rewrite inject_Z_plus, inject_Z_mult.
      change (inject_Z 100) with 100. change (inject_Z (-1)) with (-1). lra. }
    rewrite <- Zlt_Qlt in H. lia. }
  assert (Hzb : (z <= b * 100)%Z).
  { assert (H : inject_Z z < inject_Z (b * 100 + 1)).
    { rewrite inject_Z_plus, inject_Z_mult.
      change (inject_Z 100) with 100. change (inject_Z 1) with 1. lra. }
    rewrite <- Zlt_Qlt in H. lia. }
  rewrite Zle_Qle, inject_Z_mult in Hza, Hzb.
  change (inject_Z 100) with 100 in *.
  assert (E : inject_Z z / 100 == inject_Z z * (1 # 100)) by reflexivity.
  split; lra.
Qed.

(** Scores on the scale have a weighted sum between 0 and ten times the
    weight in use. *)
Lemma weighted_sum_bounds (feature_scores : dict Q) :
  Forall (fun item : string * Q => 0 <= snd item /\ snd item <= 10)
         feature_scores ->
  0 <= weighted_sum init feature_scores
  /\ weighted_sum init feature_scores <= 10 * used_weight init feature_scores.
Proof.
  unfold weighted_sum, used_weight.
  induction 1 as [| [feature score] rest [Hlo Hhi] _ [IHlo IHhi]].
  - cbn. split; lra.
  - cbn [map fst snd] in *. rewrite !sum_cons.
    pose proof (weight_of_nonnegative init init_weights_positive feature) as Hw.
    set (w := weight_of init feature) in *. split; nra.
Qed.

(** X28.  The score that [analyze_property] reports for a record is the rounded
    weighted average of its feature scores divided by the weight in use,
    never the zero of an empty score set.  When every rating given is in
    [0, 10] the score lies in [0, 40], and in [0, 10] when all eight
    features are present. *)
Theorem scored_property (now : Clock.datetime) (d : property_data) :
  calculate_property_score init (evaluate_features now d)
  = round2 (weighted_average init (evaluate_features now d)
            / used_weight init (evaluate_features now d))
  /\ ((forall rating,
          In (Some rating)
             [ PropertyAnalyzer.location_rating d; PropertyAnalyzer.condition d;
               PropertyAnalyzer.amenities d; PropertyAnalyzer.school_rating d;
               PropertyAnalyzer.future_development_rating d ] ->
          0 <= rating /\ rating <= 10) ->
      0 <= calculate_property_score init (evaluate_features now d)
      /\ calculate_property_score init (evaluate_features now d) <= 40
      /\ (keys (evaluate_features now d) = keys (feature_weights init) ->
          calculate_property_score init (evaluate_features now d) <= 10)).
Proof.
  destruct (feature_keys now d) as (_ & _ & _ & Hw & Hq).
  apply Qle_bool_iff in Hq. rewrite <- Hw in Hq.
  assert (Hscore : unrounded_property_score init (evaluate_features now d)
                   == weighted_average init (evaluate_features now d)
                      / used_weight init (evaluate_features now d))
    by (apply init_score_rescaled; lra).
  split; [now apply round2_comp |].
  intros Hratings.
  destruct (weighted_sum_bounds _ (feature_scores_clamped now d Hratings))
    as [Hlo Hhi].
  set (fs := evaluate_features now d) in *.
  set (W := used_weight init fs) in *.
  set (S := weighted_sum init fs) in *.
  assert (HW : 0 < W) by lra.
  assert (Hraw : unrounded_property_score init fs == S / W / W)
    by (rewrite Hscore; reflexivity).
  assert (Hnn : 0 <= S / W / W).
  { apply Qle_shift_div_l; [exact HW |]. apply Qle_shift_div_l; [exact HW |]. lra. }
  assert (Hmax : S / W / W <= 40).
  { apply Qle_shift_div_r; [exact HW |]. apply Qle_shift_div_r; [exact HW |]. nra. }
  unfold calculate_property_score.
  rewrite (round2_comp _ _ Hraw).
  destruct (round2_between (S / W / W) 0 40) as [H0 H40]; [exact Hnn | exact Hmax |].
  split; [exact H0 |]. split; [exact H40 |].
  intros Hall.
  assert (Hone : W == 1).
  { rewrite Hw, Hall. reflexivity. }
  destruct (round2_between (S / W / W) 0 10) as [_ H10]; [exact Hnn | | exact H10].
  apply Qle_shift_div_r; [exact HW |]. apply Qle_shift_div_r; [exact HW |].
  setoid_replace (10 * W * W) with (10 * W) by (rewrite Hone; ring).
  exact Hhi.
Qed.

Lemma scored_property_witness :
  0 <= calculate_property_score init
         (evaluate_features (Clock.mk 2026 1 1 0 0 0)
            (mk_property_data (Some 8) None (Some 1500) (Some 2000) None None
               (Some (2 # 100)) None None None None None None None None))
  /\ calculate_property_score init
       (evaluate_features (Clock.mk 2026 1 1 0 0 0)
          (mk_property_data (Some 8) None (Some 1500) (Some 2000) None None
             (Some (2 # 100)) None None None None None None None None)) <= 40
  /\ (keys (evaluate_features (Clock.mk 2026 1 1 0 0 0)
             (mk_property_data (Some 8) None (Some 1500) (Some 2000) None None
                (Some (2 # 100)) None None None None None None None None))
      = keys (feature_weights init) ->
      calculate_property_score init
        (evaluate_features (Clock.mk 2026 1 1 0 0 0)
           (mk_property_data (Some 8) None (Some 1500) (Some 2000) None None
              (Some (2 # 100)) None None None None None None None None)) <= 10).
Proof.
  apply (proj2 (scored_property (Clock.mk 2026 1 1 0 0 0)
                  (mk_property_data (Some 8) None (Some 1500) (Some 2000) None
                     None (Some (2 # 100)) None None None None None None None
                     None))).
  intros rating [H | [H | [H | [H | [H | []]]]]]; try discriminate H.
  injection H as <-. split; discriminate.
Defined.

End ScoredProperty.

(** ** Setting the feature weights *)

Section FeatureWeights.
Import Py PropertyAnalyzer PropertyMetrics.
Local Open Scope string_scope.





End FeatureWeights.

(** ** The basic metrics *)

Section BasicMetrics.
Import Py PropertyMetrics.



End BasicMetrics.
